(** * Control plane and routing core of the multi-region GPU cluster

    A shallow embedding of the state manager, instance registry, health
    monitor, regional router, failover handler, autoscaler and metrics
    collector, with the properties of the design document that concern
    them.

    Conventions of the embedding.
    - Python [int] is [Z].  The routing score is computed on Python
      [float]s as IEEE 754 doubles ([Float]); where a float is only counted,
      compared or averaged it is kept as the exact rational it denotes
      ([Q]).
    - [time.time()] is an explicit argument or an explicit clock.
    - A DynamoDB table is a finite map from the primary key to an item, and
      an item is a finite map from attribute names to attribute values.
    - A call that may raise returns a [py] value: [Ret v] or [Raise e]. *)

From Stdlib Require Import ZArith QArith Qround Qminmax Lqa Lia.
From Stdlib Require SpecFloat.
From stdpp Require Import gmap strings list fin_maps pretty.

Local Open Scope Z_scope.
Local Open Scope string_scope.

(** ** Python values and exceptions *)

Inductive exn : Type :=
  | ClientError
  | AttributeError
  | KeyError
  | ValueError
  | TypeError
  | IndexError
  | OtherException.

Inductive py (A : Type) : Type :=
  | Ret (a : A)
  | Raise (e : exn).
Arguments Ret {A} a.
Arguments Raise {A} e.

Definition py_bind {A B} (m : py A) (k : A -> py B) : py B :=
  match m with
  | Ret a => k a
  | Raise e => Raise e
  end.

(** [int(x)] on a float truncates toward zero. *)
Definition py_int (x : Q) : Z := Z.quot (Qnum x) (Zpos (Qden x)).

(** [max(0, x)]: Python's [max] keeps the first argument unless a later one
    is strictly greater. *)
Definition max0 (x : Q) : Q := if Qlt_le_dec 0 x then x else 0%Q.

(** ** Python floats

    A Python [float] is an IEEE 754 binary64 number.  A finite one is kept
    as the rational it denotes; every arithmetic operation computes the
    exact result and rounds it to the nearest double, ties to even.  The
    sign of zero is not kept: no operation used here can observe it. *)

Module Float.

Inductive float : Type :=
  | Finite (q : Q)
  | PosInf
  | NegInf
  | NaN.

(** The nearest integer to [a / b], for [0 <= a] and [0 < b]; a tie goes to
    the even neighbour. *)
Definition nearest_even (a b : Z) : Z :=
  let q := a / b in
  let r := a mod b in
  if Z.ltb (2 * r) b then q
  else if Z.ltb b (2 * r) then q + 1
  else if Z.even q then q else q + 1.

(** Every finite double is an integer multiple of 2^-1074, the smallest
    subnormal; [round_grid n d] is the double nearest to [n / d >= 0], as a
    multiple of it.  A double has 53 significant bits, so the [sh] low bits
    of the multiple are rounded away. *)
Definition round_grid (n d : Z) : Z :=
  let a := n * 2 ^ 1074 in
  let sh := Z.max (Z.log2 (a / d) - 52) 0 in
  nearest_even a (d * 2 ^ sh) * 2 ^ sh.

(** Rounding to nearest even without an upper limit on the exponent. *)
Definition rnd (x : Q) : Q :=
  let x := Qred x in
  Qred (Qmake (Z.sgn (Qnum x) * round_grid (Z.abs (Qnum x)) (Zpos (Qden x)))
          (2 ^ 1074)).

(** The double an exact result is delivered as: a rounded magnitude of
    2^1024 or more overflows to an infinity. *)
Definition of_Q (x : Q) : float :=
  let r := rnd x in
  if Qle_bool (inject_Z (2 ^ 1024)) r then PosInf
  else if Qle_bool r (inject_Z (- 2 ^ 1024)) then NegInf
  else Finite r.

(** A decimal literal denotes the double nearest to it. *)
Definition literal (x : Q) : float := of_Q x.

(** [float(n)] for an [int]: OverflowError when [n] is too large. *)
Definition of_int (n : Z) : py float :=
  match of_Q (inject_Z n) with
  | Finite q => Ret (Finite q)
  | _ => Raise OtherException
  end.

Definition neg (x : float) : float :=
  match x with
  | Finite q => Finite (- q)
  | PosInf => NegInf
  | NegInf => PosInf
  | NaN => NaN
  end.

Definition add (x y : float) : float :=
  match x, y with
  | NaN, _ | _, NaN => NaN
  | PosInf, NegInf | NegInf, PosInf => NaN
  | PosInf, _ | _, PosInf => PosInf
  | NegInf, _ | _, NegInf => NegInf
  | Finite a, Finite b => of_Q (a + b)
  end.

Definition sub (x y : float) : float := add x (neg y).

(** The sign of a rational: -1, 0 or 1. *)
Definition sign (q : Q) : Z := Z.sgn (Qnum q).

Definition signed_inf (s : Z) : float :=
  match s with
  | 0 => NaN
  | Zpos _ => PosInf
  | Zneg _ => NegInf
  end.

Definition sign_of (x : float) : Z :=
  match x with
  | Finite q => sign q
  | PosInf => 1
  | NegInf => -1
  | NaN => 0
  end.

Definition mul (x y : float) : float :=
  match x, y with
  | NaN, _ | _, NaN => NaN
  | Finite a, Finite b => of_Q (a * b)
  | _, _ => signed_inf (sign_of x * sign_of y)
  end.

(** [x / y]: Python raises ZeroDivisionError for a zero divisor. *)
Definition div (x y : float) : py float :=
  match x, y with
  | _, Finite b =>
      if Qeq_bool b 0 then Raise OtherException
      else
        match x with
        | Finite a => Ret (of_Q (a / b))
        | NaN => Ret NaN
        | _ => Ret (signed_inf (sign_of x * sign b))
        end
  | NaN, _ | _, NaN => Ret NaN
  | Finite _, _ => Ret (Finite 0)
  | _, _ => Ret NaN
  end.

(** [x < y]; a comparison with NaN is false. *)
Definition ltb (x y : float) : bool :=
  match x, y with
  | NaN, _ | _, NaN => false
  | Finite a, Finite b => negb (Qle_bool b a)
  | NegInf, NegInf => false
  | NegInf, _ => true
  | _, PosInf => match x with PosInf => false | _ => true end
  | _, _ => false
  end.

(** [int(x)]: truncation toward zero; ValueError for NaN and OverflowError
    for an infinity. *)
Definition to_int (x : float) : py Z :=
  match x with
  | Finite q => Ret (py_int q)
  | NaN => Raise ValueError
  | _ => Raise OtherException
  end.

End Float.

(** ** The replicated key-value substrate (DynamoDB, as boto3 exposes it)

    An attribute value is a string, a number or a map.  A string that holds
    a JSON document is kept in parsed form ([AJson d] stands for the text
    [json.dumps(d)]); it is still a Python [str]. *)

Module Dynamo.

Inductive attr : Type :=
  | AStr (s : string)
  | AJson (d : list (string * string))
  | AInt (n : Z)
  | AFloat (q : Q)
  | AMap (m : list (string * string)).

Abbreviation item := (gmap string attr).
Abbreviation table := (gmap string item).

Definition attr_str_eqb (a : option attr) (s : string) : bool :=
  match a with
  | Some (AStr s') => bool_decide (s' = s)
  | _ => false
  end.

(** [dict.get(k, default)] on a parsed JSON object or a map. *)
Fixpoint assoc_get (k : string) (d : list (string * string)) : option string :=
  match d with
  | [] => None
  | (k', v) :: d' => if bool_decide (k' = k) then Some v else assoc_get k d'
  end.

(** [Table.put_item(Item=it)]: the item replaces whatever the key held. *)
Definition put_item (key : string) (it : item) (t : table) : table :=
  <[key := it]> t.

(** [Table.update_item(Key={key_name: key}, UpdateExpression="SET ...")]:
    the listed attributes are set and every other attribute of the item is
    kept; an absent item is created from the key and the listed attributes. *)
Definition update_item (key_name key : string) (sets : item) (t : table)
    : table :=
  <[key := sets ∪ default {[ key_name := AStr key ]} (t !! key)]> t.

End Dynamo.

(** ** State manager (state_manager.py)

    Every operation catches [ClientError] and answers [False]; the flag
    [fault] says whether the table call of this invocation raises it.
    [now] is the value of [int(time.time())] read by the operation. *)

Module StateManager.
Import Dynamo.

Record Store : Type := mkStore {
  gpu_instances_table : table;
  routing_state_table : table;
  autoscaling_state_table : gmap (string * Z) item;
  metrics_table : gmap (string * Z) item
}.

Definition set_gpu_instances (f : table -> table) (st : Store) : Store :=
  mkStore (f (gpu_instances_table st)) (routing_state_table st)
          (autoscaling_state_table st) (metrics_table st).

Definition set_routing_state (f : table -> table) (st : Store) : Store :=
  mkStore (gpu_instances_table st) (f (routing_state_table st))
          (autoscaling_state_table st) (metrics_table st).

Definition set_autoscaling_state
    (f : gmap (string * Z) item -> gmap (string * Z) item) (st : Store)
    : Store :=
  mkStore (gpu_instances_table st) (routing_state_table st)
          (f (autoscaling_state_table st)) (metrics_table st).

Definition set_metrics
    (f : gmap (string * Z) item -> gmap (string * Z) item) (st : Store)
    : Store :=
  mkStore (gpu_instances_table st) (routing_state_table st)
          (autoscaling_state_table st) (f (metrics_table st)).

(** [metadata or {}] *)
Definition metadata_or_empty (metadata : option (list (string * string)))
    : list (string * string) :=
  default [] metadata.

Definition register_instance_item (now : Z)
    (instance_id region model_pool ip_address subnet_id
     availability_zone : string)
    (metadata : option (list (string * string))) : item :=
  list_to_map
    [ ("instance_id", AStr instance_id);
      ("region", AStr region);
      ("model_pool", AStr model_pool);
      ("state", AStr "launching");
      ("queue_depth", AInt 0);
      ("last_heartbeat", AInt now);
      ("launch_time", AInt now);
      ("ip_address", AStr ip_address);
      ("subnet_id", AStr subnet_id);
      ("availability_zone", AStr availability_zone);
      ("metadata", AJson (metadata_or_empty metadata));   (* json.dumps *)
      ("ttl", AInt (now + 604800)) ].

Definition register_instance (fault : bool) (now : Z)
    (instance_id region model_pool ip_address subnet_id
     availability_zone : string)
    (metadata : option (list (string * string))) (st : Store)
    : bool * Store :=
  let item := register_instance_item now instance_id region model_pool
                ip_address subnet_id availability_zone metadata in
  if fault then (false, st)
  else (true, set_gpu_instances (put_item instance_id item) st).

Definition update_instance_state (fault : bool) (now : Z)
    (instance_id state : string) (queue_depth : option Z) (st : Store)
    : bool * Store :=
  let expr_values : item :=
    list_to_map [ ("state", AStr state); ("last_heartbeat", AInt now) ] in
  let expr_values :=
    match queue_depth with
    | Some q => <["queue_depth" := AInt q]> expr_values
    | None => expr_values
    end in
  if fault then (false, st)
  else (true,
        set_gpu_instances (update_item "instance_id" instance_id expr_values)
          st).

Definition heartbeat (fault : bool) (now : Z) (instance_id : string)
    (queue_depth : Z) (st : Store) : bool * Store :=
  if fault then (false, st)
  else (true,
        set_gpu_instances
          (update_item "instance_id" instance_id
             (list_to_map [ ("last_heartbeat", AInt now);
                            ("queue_depth", AInt queue_depth) ]))
          st).

(** Query on [region-index]; [state] is the optional filter ([if state:]
    treats the empty string like [None]). *)
Definition get_instances_by_region (fault : bool) (region : string)
    (state : option string) (st : Store) : list item :=
  if fault then []
  else
    let in_region :=
      filter (fun it : item => attr_str_eqb (it !! "region") region = true)
        (snd <$> map_to_list (gpu_instances_table st)) in
    match state with
    | Some (String c s) =>
        filter (fun it : item =>
                  attr_str_eqb (it !! "state") (String c s) = true) in_region
    | _ => in_region
    end.

Definition get_instances_by_model_pool (fault : bool) (model_pool : string)
    (st : Store) : list item :=
  if fault then []
  else filter (fun it : item =>
                 attr_str_eqb (it !! "model_pool") model_pool = true)
         (snd <$> map_to_list (gpu_instances_table st)).

Definition update_routing_state_item (now : Z) (instance_id region : string)
    (routing_score : Q) (queue_depth : Z) (avg_latency_ms : Q)
    (health_status subnet_cidr : string) : item :=
  list_to_map
    [ ("instance_id", AStr instance_id);
      ("region", AStr region);
      ("routing_score", AInt (py_int routing_score));
      ("queue_depth", AInt queue_depth);
      ("avg_latency_ms", AInt (py_int avg_latency_ms));
      ("health_status", AStr health_status);
      ("last_updated", AInt now);
      ("subnet_cidr", AStr subnet_cidr);
      ("ttl", AInt (now + 3600)) ].

Definition update_routing_state (fault : bool) (now : Z)
    (instance_id region : string) (routing_score : Q) (queue_depth : Z)
    (avg_latency_ms : Q) (health_status subnet_cidr : string) (st : Store)
    : bool * Store :=
  let item := update_routing_state_item now instance_id region routing_score
                queue_depth avg_latency_ms health_status subnet_cidr in
  if fault then (false, st)
  else (true, set_routing_state (put_item instance_id item) st).

(** [int(value * 100) / 100] *)
Definition round2 (value : Q) : Q := (inject_Z (py_int (value * 100)) / 100)%Q.

Definition record_scaling_decision (fault : bool) (now : Z)
    (model_pool region : string)
    (current_capacity desired_capacity min_capacity max_capacity : Z)
    (current_rps target_rps : Q) (scaling_action reason : string)
    (st : Store) : bool * Store :=
  let item : item :=
    list_to_map
      [ ("model_pool", AStr model_pool);
        ("timestamp", AInt now);
        ("region", AStr region);
        ("current_capacity", AInt current_capacity);
        ("desired_capacity", AInt desired_capacity);
        ("min_capacity", AInt min_capacity);
        ("max_capacity", AInt max_capacity);
        ("current_rps", AFloat (round2 current_rps));
        ("target_rps", AFloat (round2 target_rps));
        ("scaling_action", AStr scaling_action);
        ("reason", AStr reason);
        ("ttl", AInt (now + 2592000)) ] in
  if fault then (false, st)
  else (true, set_autoscaling_state (insert (model_pool, now) item) st).

Definition record_metric (fault : bool) (now : Z)
    (metric_name region : string) (value : Q) (unit : string)
    (dimensions : option (list (string * string))) (st : Store)
    : bool * Store :=
  let timestamp := (now / 60) * 60 in
  let item : item :=
    list_to_map
      [ ("metric_name", AStr metric_name);
        ("timestamp", AInt timestamp);
        ("region", AStr region);
        ("value", AFloat (round2 value));
        ("unit", AStr unit);
        ("dimensions", AJson (metadata_or_empty dimensions));
        ("ttl", AInt (now + 2592000)) ] in
  if fault then (false, st)
  else (true, set_metrics (insert (metric_name, timestamp) item) st).

Definition attr_int_gtb (a : option attr) (n : Z) : bool :=
  match a with
  | Some (AInt m) => bool_decide (n < m)
  | _ => false
  end.

(** Query on [region-timestamp-index] with the metric-name filter. *)
Definition get_metrics (fault : bool) (now : Z) (metric_name region : string)
    (minutes : Z) (st : Store) : list item :=
  let cutoff_time := now - minutes * 60 in
  if fault then []
  else
    filter (fun it : item =>
              attr_str_eqb (it !! "region") region = true
              /\ attr_int_gtb (it !! "timestamp") cutoff_time = true
              /\ attr_str_eqb (it !! "metric_name") metric_name = true)
      (snd <$> map_to_list (metrics_table st)).

End StateManager.

(** ** Instance registry (instance_registry.py) *)

Module Registry.
Import Dynamo StateManager.

Inductive InstanceState : Type :=
  | LAUNCHING | AVAILABLE | DRAINING | TERMINATED | QUARANTINED.

Definition InstanceState_value (s : InstanceState) : string :=
  match s with
  | LAUNCHING => "launching"
  | AVAILABLE => "available"
  | DRAINING => "draining"
  | TERMINATED => "terminated"
  | QUARANTINED => "quarantined"
  end.

Inductive HealthStatus : Type :=
  | HEALTHY | DEGRADED | UNHEALTHY.

Definition HealthStatus_value (h : HealthStatus) : string :=
  match h with
  | HEALTHY => "healthy"
  | DEGRADED => "degraded"
  | UNHEALTHY => "unhealthy"
  end.

Definition register_new_instance (fault_instance fault_routing : bool)
    (now : Z)
    (instance_id region model_pool ip_address subnet_id availability_zone
     subnet_cidr : string)
    (metadata : option (list (string * string))) (st : Store)
    : bool * Store :=
  let '(success, st) :=
    register_instance fault_instance now instance_id region model_pool
      ip_address subnet_id availability_zone metadata st in
  if negb success then (false, st)
  else
    update_routing_state fault_routing now instance_id region 10%Q 0 0%Q
      (HealthStatus_value HEALTHY) subnet_cidr st.

Definition mark_instance_available (fault : bool) (now : Z)
    (instance_id : string) (st : Store) : bool * Store :=
  update_instance_state fault now instance_id (InstanceState_value AVAILABLE)
    (Some 0) st.

Definition begin_draining (fault : bool) (now : Z) (instance_id : string)
    (st : Store) : bool * Store :=
  update_instance_state fault now instance_id (InstanceState_value DRAINING)
    None st.

Definition send_heartbeat (fault : bool) (now : Z) (instance_id : string)
    (queue_depth : Z) (st : Store) : bool * Store :=
  heartbeat fault now instance_id queue_depth st.

(** The three factors of [update_routing_metrics].  [queue_score] and
    [health_score] are Python [int]s; [latency_score] is the [float]
    [100 - avg_latency_ms / 10], or the [int] 0 when that is not greater
    than 0. *)
Definition queue_score (queue_depth : Z) : Z :=
  Z.max 0 (100 - queue_depth * 10).

Definition latency_score (avg_latency_ms : Float.float) : py Float.float :=
  py_bind (Float.div avg_latency_ms (Float.Finite 10)) (fun tenth =>
  let score := Float.sub (Float.Finite 100) tenth in
  Ret (if Float.ltb (Float.Finite 0) score then score else Float.Finite 0)).

Definition health_score (h : HealthStatus) : Z :=
  match h with
  | HEALTHY => 100
  | DEGRADED => 50
  | UNHEALTHY => 0
  end.

(** The three products [queue_score * 0.5], [latency_score * 0.3] and
    [health_score * 0.2], in the order in which they are evaluated. *)
Definition weighted_terms (queue_depth : Z) (avg_latency_ms : Float.float)
    (h : HealthStatus) : py (Float.float * Float.float * Float.float) :=
  py_bind (latency_score avg_latency_ms) (fun latency_score =>
  py_bind (Float.of_int (queue_score queue_depth)) (fun queue_score =>
  py_bind (Float.of_int (health_score h)) (fun health_score =>
  Ret (Float.mul queue_score (Float.literal (5 # 10)),
       Float.mul latency_score (Float.literal (3 # 10)),
       Float.mul health_score (Float.literal (2 # 10)))))).

Definition routing_score (queue_depth : Z) (avg_latency_ms : Float.float)
    (h : HealthStatus) : py Float.float :=
  py_bind (weighted_terms queue_depth avg_latency_ms h) (fun terms =>
  let '(queue_term, latency_term, health_term) := terms in
  Ret (Float.add (Float.add queue_term latency_term) health_term)).

(** [next((i for i in instances if i['instance_id'] == instance_id), None)]:
    the subscript raises [KeyError] on an item without the attribute. *)
Fixpoint find_instance (instance_id : string) (instances : list item)
    : py (option item) :=
  match instances with
  | [] => Ret None
  | i :: rest =>
      match i !! "instance_id" with
      | None => Raise KeyError
      | Some a =>
          if attr_str_eqb (Some a) instance_id then Ret (Some i)
          else find_instance instance_id rest
      end
  end.

(** [instance.get('metadata', {}).get('subnet_cidr', '0.0.0.0/0')]: the
    second [get] exists on a map only; on a [str] or a number it raises
    [AttributeError]. *)
Definition instance_subnet_cidr (instance : item) : py string :=
  match instance !! "metadata" with
  | None => Ret "0.0.0.0/0"
  | Some (AMap m) => Ret (default "0.0.0.0/0" (assoc_get "subnet_cidr" m))
  | Some _ => Raise AttributeError
  end.

(** The call of [update_routing_state] with two [float] arguments: its
    [int(routing_score)] and [int(avg_latency_ms)] raise on a NaN
    (ValueError) and on an infinity (OverflowError) before anything is
    written. *)
Definition persist_routing_state (fault : bool) (now : Z)
    (instance_id region : string) (routing_score : Float.float)
    (queue_depth : Z) (avg_latency_ms : Float.float)
    (health_status subnet_cidr : string) (st : Store) : py (bool * Store) :=
  py_bind (Float.to_int routing_score) (fun _ =>
  py_bind (Float.to_int avg_latency_ms) (fun _ =>
  match routing_score, avg_latency_ms with
  | Float.Finite score, Float.Finite latency =>
      Ret (update_routing_state fault now instance_id region score
             queue_depth latency health_status subnet_cidr st)
  | _, _ => Raise ValueError
  end)).

Definition update_routing_metrics (self_region : string)
    (fault_query fault_routing : bool) (now : Z) (instance_id : string)
    (queue_depth : Z) (avg_latency_ms : Float.float)
    (health_status : HealthStatus) (st : Store) : py (bool * Store) :=
  py_bind (routing_score queue_depth avg_latency_ms health_status)
    (fun score =>
  let instances := get_instances_by_region fault_query self_region None st in
  py_bind (find_instance instance_id instances) (fun instance =>
  match instance with
  | None => Ret (false, st)
  | Some instance =>
      if bool_decide (instance = ∅) then Ret (false, st)
      else
        py_bind (instance_subnet_cidr instance) (fun subnet_cidr =>
        persist_routing_state fault_routing now instance_id self_region
          score queue_depth avg_latency_ms
          (HealthStatus_value health_status) subnet_cidr st)
  end)).

End Registry.

(** ** Health monitor (health_monitor.py) *)

Module HealthMonitor.
Import Dynamo StateManager.

Inductive HealthStatus : Type :=
  | HEALTHY | DEGRADED | UNHEALTHY | UNKNOWN.

Definition HealthStatus_value (h : HealthStatus) : string :=
  match h with
  | HEALTHY => "healthy"
  | DEGRADED => "degraded"
  | UNHEALTHY => "unhealthy"
  | UNKNOWN => "unknown"
  end.

Definition HealthStatus_eqb (a b : HealthStatus) : bool :=
  match a, b with
  | HEALTHY, HEALTHY | DEGRADED, DEGRADED
  | UNHEALTHY, UNHEALTHY | UNKNOWN, UNKNOWN => true
  | _, _ => false
  end.

Record InstanceHealth : Type := mkInstanceHealth {
  ih_instance_id : string;
  ih_region : string;
  ih_status : HealthStatus;
  ih_last_check : Z;
  ih_consecutive_failures : Z;
  ih_response_time_ms : Q;
  ih_error_message : option string
}.

(** The text of [degraded_reason]; the two f-strings are kept as their
    format arguments. *)
Inductive reason : Type :=
  | ReasonText (s : string)
  | ReasonInstancesUnhealthy (n : Z)       (* f"{n} instances unhealthy" *)
  | ReasonOnlyPercentHealthy (pct : Q).    (* f"Only {pct:.1f}% instances healthy" *)

Record RegionHealth : Type := mkRegionHealth {
  rh_region : string;
  rh_status : HealthStatus;
  rh_healthy_instances : Z;
  rh_total_instances : Z;
  rh_avg_response_time_ms : Q;
  rh_last_check : Z;
  rh_degraded_reason : option reason
}.

Record Monitor : Type := mkMonitor {
  region : string;
  failure_threshold : Z;
  failure_counts : gmap string Z
}.

Definition set_failure_counts (f : gmap string Z -> gmap string Z)
    (mon : Monitor) : Monitor :=
  mkMonitor (region mon) (failure_threshold mon) (f (failure_counts mon)).

(** What [requests.get] does for one probe.  [body] is [inl message] when
    reading the JSON payload or its queue depth raises, and otherwise holds
    [health_data.get('queue_depth')]. *)
Inductive probe : Type :=
  | Responded (status_code : Z) (body : string + option Z) (elapsed_ms : Q)
  | TimedOut (elapsed_ms : Q)
  | Failed (message : string).

(** [self.failure_counts[id] = self.failure_counts.get(id, 0) + 1] and the
    status that follows from the new count. *)
Definition count_failure (instance_id : string) (mon : Monitor)
    : Z * HealthStatus * Monitor :=
  let n := default 0 (failure_counts mon !! instance_id) + 1 in
  (n,
   if bool_decide (failure_threshold mon <= n) then UNHEALTHY else DEGRADED,
   set_failure_counts (insert instance_id n) mon).

Definition check_instance_health (p : probe) (now : Z)
    (instance_id : string) (mon : Monitor) : InstanceHealth * Monitor :=
  match p with
  | Responded status_code body response_time_ms =>
      if bool_decide (status_code = 200) then
        let mon := set_failure_counts (insert instance_id 0) mon in
        match body with
        | inr queue_depth =>
            let queue_depth := default 0 queue_depth in
            let status :=
              if bool_decide (8 < queue_depth)
                 || (if Qlt_le_dec 5000 response_time_ms then true else false)
              then DEGRADED else HEALTHY in
            (mkInstanceHealth instance_id (region mon) status now 0
               response_time_ms None, mon)
        | inl message =>
            let '(n, status, mon) := count_failure instance_id mon in
            (mkInstanceHealth instance_id (region mon) status now n 0%Q
               (Some message), mon)
        end
      else
        let '(n, status, mon) := count_failure instance_id mon in
        (mkInstanceHealth instance_id (region mon) status now n
           response_time_ms (Some ("HTTP " +:+ pretty status_code)), mon)
  | TimedOut elapsed_ms =>
      let '(n, status, mon) := count_failure instance_id mon in
      (mkInstanceHealth instance_id (region mon) status now n elapsed_ms
         (Some "Timeout"), mon)
  | Failed message =>
      let '(n, status, mon) := count_failure instance_id mon in
      (mkInstanceHealth instance_id (region mon) status now n 0%Q
         (Some message), mon)
  end.

Definition _update_routing_health (fault : bool) (now : Z)
    (self_region : string) (health : InstanceHealth) (st : Store) : Store :=
  let base_score :=
    match ih_status health with
    | HEALTHY => max0 (100 - ih_response_time_ms health / 10)%Q
    | DEGRADED => 50%Q
    | _ => 0%Q
    end in
  snd (update_routing_state fault now (ih_instance_id health) self_region
         base_score 0 (ih_response_time_ms health)
         (HealthStatus_value (ih_status health)) "0.0.0.0/0" st).

(** The arguments of one [executor.submit]: both subscripts can raise
    [KeyError]. *)
Definition probe_target (inst : item) : py string :=
  match inst !! "instance_id", inst !! "ip_address" with
  | Some (AStr instance_id), Some _ => Ret instance_id
  | _, _ => Raise KeyError
  end.

(** Submission of the probes, in the order of the query result.  A
    [KeyError] stops the submission; the probes already submitted still run. *)
Fixpoint submit_probes (probes : string -> probe) (now : Z)
    (instances : list item) (mon : Monitor)
    : py unit * list InstanceHealth * Monitor :=
  match instances with
  | [] => (Ret tt, [], mon)
  | inst :: rest =>
      match probe_target inst with
      | Raise e => (Raise e, [], mon)
      | Ret instance_id =>
          let '(health, mon) :=
            check_instance_health (probes instance_id) now instance_id mon in
          let '(r, healths, mon) := submit_probes probes now rest mon in
          (r, health :: healths, mon)
      end
  end.

(** The loop over [as_completed]: each result is appended and written back. *)
Definition write_back (fault : string -> bool) (now : Z)
    (self_region : string) (healths : list InstanceHealth) (st : Store)
    : Store :=
  foldl (fun st health =>
           _update_routing_health (fault (ih_instance_id health)) now
             self_region health st)
    st healths.

(** [completion] is the order in which the futures complete. *)
Definition check_all_instances (fault_query : bool) (fault : string -> bool)
    (probes : string -> probe)
    (completion : list InstanceHealth -> list InstanceHealth) (now : Z)
    (mon : Monitor) (st : Store)
    : py (list InstanceHealth) * Monitor * Store :=
  let instances :=
    get_instances_by_region fault_query (region mon) (Some "available") st in
  match instances with
  | [] => (Ret [], mon, st)
  | _ =>
      let '(r, healths, mon) := submit_probes probes now instances mon in
      match r with
      | Raise e => (Raise e, mon, st)
      | Ret _ =>
          let health_results := completion healths in
          (Ret health_results, mon,
           write_back fault now (region mon) health_results st)
      end
  end.

Definition count_status (s : HealthStatus) (hs : list InstanceHealth) : Z :=
  Z.of_nat (length (filter (fun h => HealthStatus_eqb (ih_status h) s = true) hs)).

Definition sumQ (l : list Q) : Q := foldl Qplus 0%Q l.

Definition calculate_region_health (self_region : string) (now : Z)
    (instance_healths : list InstanceHealth) : RegionHealth :=
  match instance_healths with
  | [] =>
      mkRegionHealth self_region UNHEALTHY 0 0 0%Q now
        (Some (ReasonText "No instances available"))
  | _ =>
      let total_instances := Z.of_nat (length instance_healths) in
      let healthy_instances := count_status HEALTHY instance_healths in
      let degraded_instances := count_status DEGRADED instance_healths in
      let unhealthy_instances := count_status UNHEALTHY instance_healths in
      let successful_checks :=
        filter (fun h => HealthStatus_eqb (ih_status h) HEALTHY
                         || HealthStatus_eqb (ih_status h) DEGRADED = true)
          instance_healths in
      let avg_response_time :=
        match successful_checks with
        | [] => 0%Q
        | _ => (sumQ (ih_response_time_ms <$> successful_checks)
                / inject_Z (Z.of_nat (length successful_checks)))%Q
        end in
      let healthy_percentage :=
        ((inject_Z healthy_instances / inject_Z total_instances) * 100)%Q in
      let '(status, degraded_reason) :=
        if Qle_bool 80 healthy_percentage then (HEALTHY, None)
        else if Qle_bool 50 healthy_percentage then
          (DEGRADED,
           Some (ReasonInstancesUnhealthy
                   (degraded_instances + unhealthy_instances)))
        else
          (UNHEALTHY, Some (ReasonOnlyPercentHealthy healthy_percentage)) in
      mkRegionHealth self_region status healthy_instances total_instances
        avg_response_time now degraded_reason
  end.

Definition mark_instance_unhealthy (fault_routing fault_instance : bool)
    (now : Z) (self_region instance_id : string) (st : Store)
    : bool * Store :=
  let '(success, st) :=
    update_routing_state fault_routing now instance_id self_region 0%Q 99
      99999%Q (HealthStatus_value UNHEALTHY) "0.0.0.0/0" st in
  if success then
    (success,
     snd (update_instance_state fault_instance now instance_id "draining"
            None st))
  else (success, st).

End HealthMonitor.

(** ** Failover handler (failover_handler.py) *)

Module Failover.
Import Dynamo StateManager HealthMonitor.

Inductive FailoverState : Type :=
  | NORMAL | DEGRADED | FAILOVER_ACTIVE | RECOVERING.

Definition FailoverState_eqb (a b : FailoverState) : bool :=
  match a, b with
  | NORMAL, NORMAL | DEGRADED, DEGRADED
  | FAILOVER_ACTIVE, FAILOVER_ACTIVE | RECOVERING, RECOVERING => true
  | _, _ => false
  end.

Record FailoverEvent : Type := mkFailoverEvent {
  timestamp : Z;
  from_region : string;
  to_regions : list string;
  fe_reason : reason;
  affected_instances : Z
}.

Record CrossRegionRoute : Type := mkCrossRegionRoute {
  source_region : string;
  target_region : string;
  latency_ms : Z;
  priority : Z
}.

Record FailoverHandler : Type := mkFailoverHandler {
  fh_region : string;
  degraded_threshold : Q;
  unhealthy_threshold : Q;
  recovery_threshold : Q;
  failover_state : FailoverState;
  failover_events : list FailoverEvent
}.

(** [FailoverHandler(region, state_manager, metrics_collector)] with the
    default thresholds. *)
Definition init (region : string) : FailoverHandler :=
  mkFailoverHandler region (5 # 10) (3 # 10) (8 # 10) NORMAL [].

Definition set_failover_state (s : FailoverState) (h : FailoverHandler)
    : FailoverHandler :=
  mkFailoverHandler (fh_region h) (degraded_threshold h)
    (unhealthy_threshold h) (recovery_threshold h) s (failover_events h).

Definition add_failover_event (e : FailoverEvent) (h : FailoverHandler)
    : FailoverHandler :=
  mkFailoverHandler (fh_region h) (degraded_threshold h)
    (unhealthy_threshold h) (recovery_threshold h) (failover_state h)
    (failover_events h ++ [e]).

Definition all_regions : list string :=
  [ "us-east-1"; "us-east-2"; "us-west-2" ].

Definition REGION_LATENCY : list (string * string * Z) :=
  [ ("us-east-1", "us-east-2", 15);
    ("us-east-1", "us-west-2", 70);
    ("us-east-2", "us-east-1", 15);
    ("us-east-2", "us-west-2", 55);
    ("us-west-2", "us-east-1", 70);
    ("us-west-2", "us-east-2", 55) ].

Fixpoint latency_get (src tgt : string) (m : list (string * string * Z))
    (dflt : Z) : Z :=
  match m with
  | [] => dflt
  | (s, t, l) :: m' =>
      if bool_decide (s = src) && bool_decide (t = tgt) then l
      else latency_get src tgt m' dflt
  end.

Definition Qlt_bool (x y : Q) : bool := negb (Qle_bool y x).

(** [healthy_instances / total_instances] *)
Definition ratio_of (region_health : RegionHealth) : Q :=
  (inject_Z (rh_healthy_instances region_health)
   / inject_Z (rh_total_instances region_health))%Q.

Definition evaluate_region_health (h : FailoverHandler)
    (region_health : RegionHealth) : FailoverState :=
  if bool_decide (rh_total_instances region_health = 0) then FAILOVER_ACTIVE
  else
    let healthy_ratio := ratio_of region_health in
    if Qlt_bool healthy_ratio (unhealthy_threshold h) then FAILOVER_ACTIVE
    else if Qlt_bool healthy_ratio (degraded_threshold h) then DEGRADED
    else if Qle_bool (recovery_threshold h) healthy_ratio then NORMAL
    else failover_state h.

(** [routes.sort(key=lambda r: (r.priority, r.latency_ms))]: a stable sort. *)
Definition route_leb (a b : CrossRegionRoute) : bool :=
  bool_decide (priority a < priority b)
  || (bool_decide (priority a = priority b)
      && bool_decide (latency_ms a <= latency_ms b)).

Fixpoint insert_route (r : CrossRegionRoute) (l : list CrossRegionRoute)
    : list CrossRegionRoute :=
  match l with
  | [] => [r]
  | x :: l' => if route_leb x r then x :: insert_route r l' else r :: x :: l'
  end.

Definition sort_routes (l : list CrossRegionRoute) : list CrossRegionRoute :=
  foldl (fun acc r => insert_route r acc) [] l.

Definition get_failover_targets (source_region : string)
    : list CrossRegionRoute :=
  let routes :=
    (fun target_region =>
       let latency :=
         latency_get source_region target_region REGION_LATENCY 100 in
       let priority :=
         if bool_decide (latency < 30) then 1
         else if bool_decide (latency < 60) then 2 else 3 in
       mkCrossRegionRoute source_region target_region latency priority)
    <$> filter (fun target_region => target_region ≠ source_region)
          all_regions in
  sort_routes routes.

(** Text of [f"Failover from {self.region}"]. *)
Definition failover_reason (region : string) : string :=
  "Failover from " +:+ region.

Definition _trigger_failover_scaling (fault : string -> bool) (now : Z)
    (self_region : string) (target_regions : list string)
    (additional_capacity_needed : Z) (st : Store) : Store :=
  let capacity_per_region :=
    additional_capacity_needed / Z.of_nat (length target_regions) in
  foldl (fun st target_region =>
           snd (record_scaling_decision (fault target_region) now "all"
                  target_region 0 capacity_per_region 0 100 0%Q (15 # 10)
                  "scale-up" (failover_reason self_region) st))
    st target_regions.

(** [region_health.degraded_reason or "Region unhealthy"] *)
Definition reason_or_default (r : option reason) : reason :=
  match r with
  | None | Some (ReasonText "") => ReasonText "Region unhealthy"
  | Some r => r
  end.

(** [metric_raises] says whether the call of
    [self.metrics_collector.record_metric] raises; it is made after the
    state has been assigned. *)
Definition initiate_failover (fault_query fault_scaling : string -> bool)
    (metric_raises : bool) (now : Z) (region : string)
    (region_health : RegionHealth) (h : FailoverHandler) (st : Store)
    : py bool * FailoverHandler * Store :=
  let target_routes := get_failover_targets region in
  let healthy_targets :=
    target_region <$>
      filter (fun route =>
                (0 < length (get_instances_by_region
                               (fault_query (target_region route))
                               (target_region route) (Some "available") st))%nat)
        target_routes in
  match healthy_targets with
  | [] => (Ret false, h, st)
  | _ =>
      let failover_event :=
        mkFailoverEvent now region healthy_targets
          (reason_or_default (rh_degraded_reason region_health))
          (rh_total_instances region_health) in
      let h := add_failover_event failover_event h in
      let h := set_failover_state FAILOVER_ACTIVE h in
      if metric_raises then (Raise OtherException, h, st)
      else
        (Ret true, h,
         _trigger_failover_scaling fault_scaling now (fh_region h)
           healthy_targets (rh_total_instances region_health) st)
  end.

Definition check_recovery (metric_raises : bool)
    (region_health : RegionHealth) (h : FailoverHandler)
    : py bool * FailoverHandler :=
  if negb (FailoverState_eqb (failover_state h) FAILOVER_ACTIVE)
  then (Ret false, h)
  else
    let healthy_ratio :=
      if bool_decide (0 < rh_total_instances region_health)
      then ratio_of region_health else 0%Q in
    if Qle_bool (recovery_threshold h) healthy_ratio then
      let h := set_failover_state RECOVERING h in
      if metric_raises then (Raise OtherException, h) else (Ret true, h)
    else (Ret false, h).

Definition complete_recovery (metric_raises : bool) (h : FailoverHandler)
    : py bool * FailoverHandler :=
  if negb (FailoverState_eqb (failover_state h) RECOVERING)
  then (Ret false, h)
  else
    let h := set_failover_state NORMAL h in
    if metric_raises then (Raise OtherException, h) else (Ret true, h).

(** The state-transition part of one iteration of
    [run_failover_monitor_loop], from the region health just computed.  An
    exception ends the iteration; the loop catches it. *)
Definition handle_transition (fault_query fault_scaling : string -> bool)
    (metric_raises : bool) (now : Z) (region_health : RegionHealth)
    (h : FailoverHandler) (st : Store) : FailoverHandler * Store :=
  match evaluate_region_health h region_health with
  | FAILOVER_ACTIVE =>
      if negb (FailoverState_eqb (failover_state h) FAILOVER_ACTIVE) then
        let '(_, h, st) :=
          initiate_failover fault_query fault_scaling metric_raises now
            (fh_region h) region_health h st in
        (h, st)
      else (h, st)
  | NORMAL =>
      if FailoverState_eqb (failover_state h) RECOVERING then
        (snd (complete_recovery metric_raises h), st)
      else if FailoverState_eqb (failover_state h) FAILOVER_ACTIVE then
        (snd (check_recovery metric_raises region_health h), st)
      else (h, st)
  | DEGRADED =>
      if FailoverState_eqb (failover_state h) NORMAL then
        (set_failover_state DEGRADED h, st)
      else (h, st)
  | RECOVERING => (h, st)
  end.

(** What one iteration of the loop is given from outside. *)
Record Tick : Type := mkTick {
  tick_now : Z;
  tick_fault_query : bool;
  tick_fault_routing : string -> bool;
  tick_probes : string -> probe;
  tick_completion : list InstanceHealth -> list InstanceHealth;
  tick_fault_targets : string -> bool;
  tick_fault_scaling : string -> bool;
  tick_metric_raises : bool
}.

(** One iteration of the [while True] loop of [run_failover_monitor_loop]. *)
Definition run_failover_monitor_iteration (t : Tick)
    (w : FailoverHandler * Monitor * Store)
    : FailoverHandler * Monitor * Store :=
  let '(h, mon, st) := w in
  let '(r, mon, st) :=
    check_all_instances (tick_fault_query t) (tick_fault_routing t)
      (tick_probes t) (tick_completion t) (tick_now t) mon st in
  match r with
  | Raise _ => (h, mon, st)
  | Ret instance_healths =>
      let region_health :=
        calculate_region_health (region mon) (tick_now t) instance_healths in
      let '(h, st) :=
        handle_transition (tick_fault_targets t) (tick_fault_scaling t)
          (tick_metric_raises t) (tick_now t) region_health h st in
      (h, mon, st)
  end.

(** The loop, for as many iterations as there are ticks. *)
Definition run_failover_monitor_loop (ticks : list Tick)
    (w : FailoverHandler * Monitor * Store)
    : FailoverHandler * Monitor * Store :=
  foldl (fun w t => run_failover_monitor_iteration t w) w ticks.

End Failover.

(** ** Regional router (router_app.py) *)

Module Router.
Import Dynamo.

(** An instance dict as the router reads it.  The fields read with
    [dict.get] may be absent. *)
Record Instance : Type := mkInstance {
  instance_id : string;
  private_ip : option string;
  inst_region : string;
  model_pool : string;
  status : option string;
  health_score : option Z;
  routing_score : option Z;
  queue_depth : Z;
  avg_latency_ms : Z;
  subnet_cidr : string
}.

Definition set_scores (hs rs : option Z) (i : Instance) : Instance :=
  mkInstance (instance_id i) (private_ip i) (inst_region i) (model_pool i)
    (status i) hs rs (queue_depth i) (avg_latency_ms i) (subnet_cidr i).

(** The score the router compares: [x.get('routing_score', 0)]. *)
Definition score_of (i : Instance) : Z := default 0 (routing_score i).

Fixpoint insert_by_score (i : Instance) (l : list Instance) : list Instance :=
  match l with
  | [] => [i]
  | x :: l' =>
      if bool_decide (score_of i <= score_of x) then x :: insert_by_score i l'
      else i :: x :: l'
  end.

Definition sort_by_score_desc (l : list Instance) : list Instance :=
  foldl (fun acc i => insert_by_score i acc) [] l.

(** Modelled from the spec: [InstanceRegistry.get_instances_by_region_and_model],
    which [select_instance] calls, is not defined in instance_registry.py.
    Following section 4.5, it reads the top-K (K = 10) workers of the region
    by score from the per-process cache and keeps those of the model pool. *)
Definition get_instances_by_region_and_model (cache : list Instance)
    (region model_pool' : string) : list Instance :=
  filter (fun i => model_pool i = model_pool')
    (take 10 (sort_by_score_desc
                (filter (fun i => inst_region i = region) cache))).

(** Modelled from the spec: [InstanceRegistry.update_health], which
    [forward_request] calls with [health_score=0], is not defined in
    instance_registry.py.  Following section 4.5 it demotes the worker in
    the per-process cache: the health score is recorded and the routing
    score is set to 0. *)
Definition update_health (instance_id' : string) (health_score' : Z)
    (cache : list Instance) : list Instance :=
  (fun i => if bool_decide (instance_id i = instance_id')
            then set_scores (Some health_score') (Some 0) i else i)
  <$> cache.

Record RegionalRouter : Type := mkRouter {
  region : string;
  registry : list Instance;
  total_requests : Z;
  successful_requests : Z;
  failed_requests : Z;
  total_routing_time : Q;
  (* ghost: the instance ids a POST was sent to, oldest first *)
  sent : list string
}.

Definition init (region : string) (cache : list Instance) : RegionalRouter :=
  mkRouter region cache 0 0 0 0%Q [].

(** [max(l, key=f)] on a non-empty list: a later element replaces the
    current best only when its key is strictly greater, so that of several
    elements with the greatest key the first in the list is returned. *)
Definition max_by {A} (key : A -> Z) (first : A) (rest : list A) : A :=
  foldl (fun best x => if bool_decide (key best < key x) then x else best)
    first rest.

Definition is_healthy (inst : Instance) : bool :=
  bool_decide (status inst = Some "ready")
  && bool_decide (50 < default 0 (health_score inst)).

Definition select_instance (r : RegionalRouter) (model_pool : string)
    : option Instance :=
  let instances :=
    get_instances_by_region_and_model (registry r) (region r) model_pool in
  match instances with
  | [] => None
  | _ =>
      let healthy_instances := filter (fun i => is_healthy i = true) instances in
      match healthy_instances with
      | [] => None
      | first :: rest => Some (max_by score_of first rest)
      end
  end.

(** What [requests.post] does when sent to an instance. *)
Inductive reply : Type :=
  | Response (content : string) (status_code : Z)
  | Timeout
  | ConnectionError
  | Failure.

Definition log_sent (instance_id' : string) (r : RegionalRouter)
    : RegionalRouter :=
  mkRouter (region r) (registry r) (total_requests r) (successful_requests r)
    (failed_requests r) (total_routing_time r) (sent r ++ [instance_id']).

Definition set_registry (cache : list Instance) (r : RegionalRouter)
    : RegionalRouter :=
  mkRouter (region r) cache (total_requests r) (successful_requests r)
    (failed_requests r) (total_routing_time r) (sent r).

Definition forward_request (upstream : string -> reply) (instance : Instance)
    (r : RegionalRouter) : py (option string * Z) * RegionalRouter :=
  match private_ip instance with
  | None => (Raise KeyError, r)
  | Some _ =>
      let r := log_sent (instance_id instance) r in
      match upstream (instance_id instance) with
      | Response content status_code => (Ret (Some content, status_code), r)
      | Timeout => (Ret (None, 504), r)
      | ConnectionError =>
          (Ret (None, 503),
           set_registry (update_health (instance_id instance) 0 (registry r)) r)
      | Failure => (Ret (None, 500), r)
      end
  end.

Definition count_request (r : RegionalRouter) : RegionalRouter :=
  mkRouter (region r) (registry r) (total_requests r + 1)
    (successful_requests r) (failed_requests r) (total_routing_time r)
    (sent r).

Definition count_failed (r : RegionalRouter) : RegionalRouter :=
  mkRouter (region r) (registry r) (total_requests r) (successful_requests r)
    (failed_requests r + 1) (total_routing_time r) (sent r).

Definition count_successful (r : RegionalRouter) : RegionalRouter :=
  mkRouter (region r) (registry r) (total_requests r)
    (successful_requests r + 1) (failed_requests r) (total_routing_time r)
    (sent r).

Definition add_routing_time (t : Q) (r : RegionalRouter) : RegionalRouter :=
  mkRouter (region r) (registry r) (total_requests r) (successful_requests r)
    (failed_requests r) (total_routing_time r + t)%Q (sent r).

(** [routing_time] is the time the request took, as [process_request]
    measures it. *)
Definition process_request (upstream : string -> reply) (routing_time : Q)
    (headers : list (string * string)) (r : RegionalRouter)
    : (option string * Z) * RegionalRouter :=
  let r := count_request r in
  let model_pool := default "default" (assoc_get "X-Model-Pool" headers) in
  match select_instance r model_pool with
  | None => ((None, 503), count_failed r)
  | Some instance =>
      match forward_request upstream instance r with
      | (Raise _, r) => ((None, 500), count_failed r)
      | (Ret (response_data, status_code), r) =>
          let r := add_routing_time routing_time r in
          let r := if bool_decide (status_code = 200)
                   then count_successful r else count_failed r in
          ((response_data, status_code), r)
      end
  end.

End Router.

(** ** Autoscaler (autoscaler.py) *)

Module Autoscaler.

(** A value of the scaling-state dict. *)
Inductive sval : Type :=
  | SNone
  | SNum (q : Q)
  | SInt (n : Z)
  | SStr (s : string).

Abbreviation dict := (gmap string sval).

(** Truth value of a Python object: [None], zero and the empty string are
    false. *)
Definition truthy (v : sval) : bool :=
  match v with
  | SNone => false
  | SNum q => negb (Qeq_bool q 0)
  | SInt n => negb (bool_decide (n = 0))
  | SStr s => negb (bool_decide (s = ""))
  end.

(** The number a value stands for in [time.time() - v]; the subtraction
    raises [TypeError] on [None] and on a string. *)
Definition as_number (v : sval) : py Q :=
  match v with
  | SNum q => Ret q
  | SInt n => Ret (inject_Z n)
  | _ => Raise TypeError
  end.

Record GpuInstance : Type := mkGpuInstance {
  instance_id : string;
  routing_score : option Q
}.

Record AutoScaler : Type := mkAutoScaler {
  region : string;
  target_rps_per_instance : Q;
  min_instances : Z;
  max_instances : Z;
  scale_up_threshold_minutes : Z;
  scale_down_threshold_minutes : Z;
  cooldown_period_seconds : Z
}.

(** [AutoScaler(region)] *)
Definition init (region : string) : AutoScaler :=
  mkAutoScaler region (125 # 10) 2 20 2 10 300.

(** What the autoscaler acts on: the number of [time.time()] calls and of
    state-store calls made so far, the autoscaling-state row of the region
    as it was last written, and the ready instances the state manager
    lists. *)
Record World : Type := mkWorld {
  reads : nat;
  calls : nat;
  row : option dict;
  fleet : list GpuInstance
}.

(** The state store has answered one more call. *)
Definition called (w : World) : World :=
  mkWorld (reads w) (S (calls w)) (row w) (fleet w).

(** How the state store answers a read of the scaling-state row: with the
    row as last written, with a row that a replica still holds or that
    another writer left there, or not at all. *)
Inductive row_read : Type :=
  | Fresh
  | Stale (r : option dict)
  | Unavailable.

Inductive Action : Type := ScaleUp | ScaleDown.

Section WithClock.

(** [time_at n] is what the [n]-th call of [time.time()] returns. *)
Variable time_at : nat -> Q.

(** The state store, call by call: [row_read_at n] is the answer when its
    [n]-th call reads the scaling-state row, and [store_fails_at n] says
    whether its [n]-th call raises when it is a write or a listing. *)
Variable row_read_at : nat -> row_read.
Variable store_fails_at : nat -> bool.

Definition M (A : Type) : Type := World -> py A * World.

Definition ret {A} (a : A) : M A := fun w => (Ret a, w).

Definition bind {A B} (m : M A) (k : A -> M B) : M B :=
  fun w =>
    match m w with
    | (Ret a, w') => k a w'
    | (Raise e, w') => (Raise e, w')
    end.

Definition lift {A} (r : py A) : M A := fun w => (r, w).

(** [try: m except Exception: return a] *)
Definition try_except {A} (m : M A) (a : A) : M A :=
  fun w =>
    match m w with
    | (Raise _, w') => (Ret a, w')
    | r => r
    end.

Notation "'let*' x ':=' m 'in' k" := (bind m (fun x => k))
  (at level 10, x name, m at level 100, k at level 200).

Definition time_time : M Q :=
  fun w =>
    (Ret (time_at (reads w)),
     mkWorld (S (reads w)) (calls w) (row w) (fleet w)).

(** Modelled from the spec: [StateManager.get_autoscaling_state], which the
    autoscaler calls, is not defined in state_manager.py.  It reads the
    shared scaling-state row of the region (section 4.7, step 6).  Reads may
    return stale rows from any replica (section 4.1), the row is shared with
    other writers and not locked (section 5), and the store can fail
    transiently (section 7). *)
Definition get_autoscaling_state (region : string) : M (option dict) :=
  fun w =>
    match row_read_at (calls w) with
    | Fresh => (Ret (row w), called w)
    | Stale r => (Ret r, called w)
    | Unavailable => (Raise ClientError, called w)
    end.

(** Modelled from the spec: [StateManager.update_autoscaling_state], which
    the autoscaler calls, is not defined in state_manager.py.  It persists
    the scaling-state row of the region (section 4.7, step 6).  Writes fail
    fast and are not retried (section 4.1); a failed write leaves the row
    as it was. *)
Definition update_autoscaling_state (region : string) (state : dict)
    : M unit :=
  fun w =>
    if store_fails_at (calls w) then (Raise ClientError, called w)
    else (Ret tt, mkWorld (reads w) (S (calls w)) (Some state) (fleet w)).

(** Modelled from the spec: [StateManager.list_gpu_instances], which the
    autoscaler calls with the region and the status [ready], is not defined
    in state_manager.py.  It lists the current workers of the region that
    are available (section 4.7, step 1), unless the store fails. *)
Definition list_gpu_instances : M (list GpuInstance) :=
  fun w =>
    if store_fails_at (calls w) then (Raise ClientError, called w)
    else (Ret (fleet w), called w).

(** Modelled from the spec: [StateManager.delete_gpu_instance], which
    [scale_down] calls, is not defined in state_manager.py.  It removes the
    worker (section 4.7, step 7), unless the store fails. *)
Definition delete_gpu_instance (instance_id' : string) : M unit :=
  fun w =>
    if store_fails_at (calls w) then (Raise ClientError, called w)
    else
      (Ret tt,
       mkWorld (reads w) (S (calls w)) (row w)
         (filter (fun i => instance_id i ≠ instance_id') (fleet w))).

Variable self : AutoScaler.

Definition get_current_instance_count : M Z :=
  try_except
    (let* instances := list_gpu_instances in
     ret (Z.of_nat (length instances)))
    0.

Definition initial_state : dict :=
  list_to_map
    [ ("region", SStr (region self));
      ("desired_capacity", SInt (min_instances self));
      ("last_scale_action", SNone);
      ("last_scale_time", SInt 0);
      ("high_rps_since", SNone);
      ("low_rps_since", SNone) ].

(** [not state] for an optional dict. *)
Definition no_state (state : option dict) : bool :=
  match state with
  | None => true
  | Some d => bool_decide (d = ∅)
  end.

Definition get_scaling_state : M dict :=
  try_except
    (let* state := get_autoscaling_state (region self) in
     if no_state state then
       let state := initial_state in
       let* _ := update_autoscaling_state (region self) state in
       ret state
     else ret (default ∅ state))
    ∅.

(** [should_scale_up] answers with its result and with the dict it was
    given, which it may have modified in place. *)
Definition should_scale_up (current_rps : Q) (current_count : Z)
    (scaling_state : dict) : M (bool * dict) :=
  if bool_decide (max_instances self <= current_count)
  then ret (false, scaling_state)
  else
    let last_scale_time :=
      default (SInt 0) (scaling_state !! "last_scale_time") in
    let* now := time_time in
    let* last := lift (as_number last_scale_time) in
    if Qlt_le_dec (now - last) (inject_Z (cooldown_period_seconds self))
    then ret (false, scaling_state)
    else
      let target_rps :=
        (target_rps_per_instance self * inject_Z current_count)%Q in
      let scale_up_threshold := (target_rps * (12 # 10))%Q in
      if Qlt_le_dec scale_up_threshold current_rps then
        let high_rps_since :=
          default SNone (scaling_state !! "high_rps_since") in
        if negb (truthy high_rps_since) then
          let* now := time_time in
          let scaling_state := <["high_rps_since" := SNum now]> scaling_state in
          let* _ := update_autoscaling_state (region self) scaling_state in
          ret (false, scaling_state)
        else
          let* now := time_time in
          let* since := lift (as_number high_rps_since) in
          let duration := (now - since)%Q in
          if Qle_bool (inject_Z (scale_up_threshold_minutes self * 60)) duration
          then ret (true, scaling_state)
          else ret (false, scaling_state)
      else
        if truthy (default SNone (scaling_state !! "high_rps_since")) then
          let scaling_state := <["high_rps_since" := SNone]> scaling_state in
          let* _ := update_autoscaling_state (region self) scaling_state in
          ret (false, scaling_state)
        else ret (false, scaling_state).

Definition should_scale_down (current_rps : Q) (current_count : Z)
    (scaling_state : dict) : M (bool * dict) :=
  if bool_decide (current_count <= min_instances self)
  then ret (false, scaling_state)
  else
    let last_scale_time :=
      default (SInt 0) (scaling_state !! "last_scale_time") in
    let* now := time_time in
    let* last := lift (as_number last_scale_time) in
    if Qlt_le_dec (now - last) (inject_Z (cooldown_period_seconds self))
    then ret (false, scaling_state)
    else
      let target_rps :=
        (target_rps_per_instance self * inject_Z current_count)%Q in
      let scale_down_threshold := (target_rps * (5 # 10))%Q in
      if Qlt_le_dec current_rps scale_down_threshold then
        let low_rps_since :=
          default SNone (scaling_state !! "low_rps_since") in
        if negb (truthy low_rps_since) then
          let* now := time_time in
          let scaling_state := <["low_rps_since" := SNum now]> scaling_state in
          let* _ := update_autoscaling_state (region self) scaling_state in
          ret (false, scaling_state)
        else
          let* now := time_time in
          let* since := lift (as_number low_rps_since) in
          let duration := (now - since)%Q in
          if Qle_bool (inject_Z (scale_down_threshold_minutes self * 60))
               duration
          then ret (true, scaling_state)
          else ret (false, scaling_state)
      else
        if truthy (default SNone (scaling_state !! "low_rps_since")) then
          let scaling_state := <["low_rps_since" := SNone]> scaling_state in
          let* _ := update_autoscaling_state (region self) scaling_state in
          ret (false, scaling_state)
        else ret (false, scaling_state).

(** The five assignments both [scale_up] and [scale_down] make before they
    persist the state. *)
Definition record_action (desired_capacity : Z) (action : string) (now : Q)
    (scaling_state : dict) : dict :=
  <["low_rps_since" := SNone]>
    (<["high_rps_since" := SNone]>
       (<["last_scale_time" := SNum now]>
          (<["last_scale_action" := SStr action]>
             (<["desired_capacity" := SInt desired_capacity]>
                scaling_state)))).

Definition scale_up (current_count : Z) : M bool :=
  try_except
    (let* scaling_state := get_scaling_state in
     let* now := time_time in
     let scaling_state :=
       record_action (current_count + 1) "scale_up" now scaling_state in
     let* _ := update_autoscaling_state (region self) scaling_state in
     ret true)
    false.

(** [min(l, key=f)] on a non-empty list: the first element with the least
    key. *)
Definition min_by {A} (key : A -> Q) (first : A) (rest : list A) : A :=
  foldl (fun best x => if Qlt_le_dec (key x) (key best) then x else best)
    first rest.

Definition scale_down (current_count : Z) : M bool :=
  try_except
    (let* instances := list_gpu_instances in
     match instances with
     | [] => ret false
     | first :: rest =>
         let instance_to_terminate :=
           min_by (fun x => default 0%Q (routing_score x)) first rest in
         let* _ := delete_gpu_instance (instance_id instance_to_terminate) in
         let* scaling_state := get_scaling_state in
         let* now := time_time in
         let scaling_state :=
           record_action (current_count - 1) "scale_down" now scaling_state in
         let* _ := update_autoscaling_state (region self) scaling_state in
         ret true
     end)
    false.

(** [run] with the value [get_current_rps] returned.  The answer says which
    scaling action was carried out, if any. *)
Definition run (current_rps : Q) : M (option Action) :=
  try_except
    (let* current_count := get_current_instance_count in
     let* scaling_state := get_scaling_state in
     let* up := should_scale_up current_rps current_count scaling_state in
     let '(up, scaling_state) := up in
     if up then
       let* done := scale_up current_count in
       ret (if done then Some ScaleUp else None)
     else
       let* down :=
         should_scale_down current_rps current_count scaling_state in
       let '(down, scaling_state) := down in
       if down then
         let* done := scale_down current_count in
         ret (if done then Some ScaleDown else None)
       else ret None)
    None.

End WithClock.

(** The cooldown between two actions, in seconds. *)
Definition cooldown_of (self : AutoScaler) : Q :=
  inject_Z (cooldown_period_seconds self).

(** [scaling_state.get('last_scale_time', 0)] *)
Definition last_scale_time (d : dict) : sval :=
  default (SInt 0) (d !! "last_scale_time").

(** The last scale time the stored row holds (0 without a row). *)
Definition stored_last_scale_time (w : World) : sval :=
  last_scale_time (default ∅ (row w)).

(** The stored last scale time as a number (0 if it is not one). *)
Definition stamp (w : World) : Q :=
  match as_number (stored_last_scale_time w) with
  | Ret q => q
  | Raise _ => 0%Q
  end.

(** Successive invocations of [run] (the scheduler invokes it every minute).
    Before each one the environment supplies the current RPS and the
    instances the state manager lists.  The answer lists the actions carried
    out, each with the last scale time it stored. *)
Fixpoint runs (time_at : nat -> Q) (row_read_at : nat -> row_read)
    (store_fails_at : nat -> bool) (self : AutoScaler)
    (inputs : list (Q * list GpuInstance)) (w : World)
    : list (Action * Q) * World :=
  match inputs with
  | [] => ([], w)
  | (current_rps, fleet) :: rest =>
      let w := mkWorld (reads w) (calls w) (row w) fleet in
      let '(r, w) :=
        run time_at row_read_at store_fails_at self current_rps w in
      let '(actions, w') :=
        runs time_at row_read_at store_fails_at self rest w in
      (match r with
       | Ret (Some action) => (action, stamp w) :: actions
       | _ => actions
       end, w')
  end.

End Autoscaler.

(** ** Metrics collector (metrics_collector.py) *)

Module Metrics.
Import Dynamo StateManager.

Definition regions : list string := [ "us-east-1"; "us-east-2"; "us-west-2" ].

(** [json.loads(m.get('dimensions', '{}'))] *)
Definition dimensions_of (m : item) : py (list (string * string)) :=
  match m !! "dimensions" with
  | None => Ret []
  | Some (AJson d) => Ret d
  | Some (AStr _) => Raise ValueError
  | Some _ => Raise TypeError
  end.

(** [m['value']], used as a number. *)
Definition value_of (m : item) : py Q :=
  match m !! "value" with
  | None => Raise KeyError
  | Some (AFloat q) => Ret q
  | Some (AInt n) => Ret (inject_Z n)
  | Some _ => Raise TypeError
  end.

(** [m['timestamp']], used in a comparison. *)
Definition timestamp_of (m : item) : py Z :=
  match m !! "timestamp" with
  | None => Raise KeyError
  | Some (AInt n) => Ret n
  | Some _ => Raise TypeError
  end.

(** A list comprehension whose element expression may raise. *)
Fixpoint map_py {A B} (f : A -> py B) (l : list A) : py (list B) :=
  match l with
  | [] => Ret []
  | x :: l' =>
      py_bind (f x) (fun y => py_bind (map_py f l') (fun ys => Ret (y :: ys)))
  end.

(** A list comprehension whose condition may raise. *)
Fixpoint filter_py {A} (f : A -> py bool) (l : list A) : py (list A) :=
  match l with
  | [] => Ret []
  | x :: l' =>
      py_bind (f x) (fun b =>
      py_bind (filter_py f l') (fun ys => Ret (if b then x :: ys else ys)))
  end.

(** [json.loads(m.get('dimensions', '{}')).get(key) == value] *)
Definition dimension_is (key value : string) (m : item) : py bool :=
  py_bind (dimensions_of m) (fun d =>
  Ret (bool_decide (assoc_get key d = Some value))).

Definition sumQ (l : list Q) : Q := foldl Qplus 0%Q l.

Definition lenQ {A} (l : list A) : Q := inject_Z (Z.of_nat (length l)).

Section Readers.

(** [fault region] says whether the metrics query for the region fails;
    [now] is the time of the queries. *)
Variable fault : string -> bool.
Variable now : Z.
Variable st : Store.

Definition region_rps (model_pool : option string) (minutes : Z)
    (region : string) : py (string * Q) :=
  let metrics := get_metrics (fault region) now "rps" region minutes st in
  py_bind
    (match model_pool with
     | Some (String c p) => filter_py (dimension_is "model_pool" (String c p)) metrics
     | _ => Ret metrics
     end)
    (fun metrics =>
       match metrics with
       | [] => Ret (region, 0%Q)
       | _ =>
           py_bind (map_py value_of metrics) (fun values =>
           Ret (region, (sumQ values / lenQ metrics)%Q))
       end).

Definition get_cluster_rps (model_pool : option string) (minutes : Z)
    : py (list (string * Q)) :=
  map_py (region_rps model_pool minutes) regions.

(** [latest_by_instance], in insertion order. *)
Fixpoint latest_insert (instance_id : string) (m : item)
    (latest : list (string * item)) : py (list (string * item)) :=
  match latest with
  | [] => Ret [(instance_id, m)]
  | (k, m') :: rest =>
      if bool_decide (k = instance_id) then
        py_bind (timestamp_of m) (fun t =>
        py_bind (timestamp_of m') (fun t' =>
        Ret (if bool_decide (t' < t) then (k, m) :: rest
             else (k, m') :: rest)))
      else
        py_bind (latest_insert instance_id m rest) (fun rest' =>
        Ret ((k, m') :: rest'))
  end.

Fixpoint group_latest (metrics : list item) (latest : list (string * item))
    : py (list (string * item)) :=
  match metrics with
  | [] => Ret latest
  | m :: rest =>
      py_bind (dimensions_of m) (fun d =>
      match assoc_get "instance_id" d with
      | Some (String c i) =>
          py_bind (latest_insert (String c i) m latest) (group_latest rest)
      | _ => group_latest rest latest
      end)
  end.

Definition get_average_queue_depth (region : string) (minutes : Z) : py Q :=
  let metrics :=
    get_metrics (fault region) now "queue_depth" region minutes st in
  match metrics with
  | [] => Ret 0%Q
  | _ =>
      py_bind (group_latest metrics []) (fun latest_by_instance =>
      match latest_by_instance with
      | [] => Ret 0%Q
      | _ =>
          py_bind (map_py value_of (snd <$> latest_by_instance))
            (fun values =>
               Ret (sumQ values / lenQ latest_by_instance)%Q)
      end)
  end.

Record LoadStats : Type := mkLoadStats {
  stat_min : Q;
  stat_max : Q;
  stat_avg : Q;
  stat_p50 : Q;
  stat_p95 : Q;
  stat_p99 : Q;
  stat_count : Z
}.

Fixpoint insert_sorted (x : Q) (l : list Q) : list Q :=
  match l with
  | [] => [x]
  | y :: l' => if Qle_bool y x then y :: insert_sorted x l' else x :: y :: l'
  end.

(** [sorted(values)] *)
Definition sorted (l : list Q) : list Q :=
  foldl (fun acc x => insert_sorted x acc) [] l.

(** [values[i]] for [i >= 0] *)
Definition index (values : list Q) (i : Z) : py Q :=
  match values !! Z.to_nat i with
  | Some v => Ret v
  | None => Raise IndexError
  end.

Definition region_model_load (model_pool : string) (minutes : Z)
    (region : string) : py (list item) :=
  filter_py (dimension_is "model_pool" model_pool)
    (get_metrics (fault region) now "model_load_time" region minutes st).

Definition get_model_load_stats (model_pool : string) (minutes : Z)
    : py LoadStats :=
  py_bind (map_py (region_model_load model_pool minutes) regions)
    (fun per_region =>
  let metrics := concat per_region in
  match metrics with
  | [] => Ret (mkLoadStats 0 0 0 0 0 0 0)
  | _ =>
      py_bind (map_py value_of metrics) (fun values =>
      let values := sorted values in
      let count := Z.of_nat (length values) in
      py_bind (index values 0) (fun vmin =>
      py_bind (index values (count - 1)) (fun vmax =>
      py_bind (index values (py_int (inject_Z count * (50 # 100)))) (fun p50 =>
      py_bind (index values (py_int (inject_Z count * (95 # 100)))) (fun p95 =>
      py_bind (index values (py_int (inject_Z count * (99 # 100)))) (fun p99 =>
      Ret (mkLoadStats vmin vmax (sumQ values / inject_Z count)%Q
             p50 p95 p99 count)))))))
  end).

Record CleanupStats : Type := mkCleanupStats {
  success_rate : Q;
  total_validations : Z;
  passed : Z;
  failed : Z
}.

Definition count_py (f : item -> py bool) (l : list item) : py Z :=
  py_bind (filter_py f l) (fun l' => Ret (Z.of_nat (length l'))).

Definition get_cleanup_success_rate (hours : Z) : py CleanupStats :=
  let metrics :=
    concat ((fun region =>
               get_metrics (fault region) now "cleanup_validation_duration"
                 region (hours * 60) st) <$> regions) in
  match metrics with
  | [] => Ret (mkCleanupStats 100 0 0 0)
  | _ =>
      py_bind (count_py (dimension_is "status" "passed") metrics) (fun passed =>
      py_bind (count_py (dimension_is "status" "failed") metrics) (fun failed =>
      let total := passed + failed in
      Ret (mkCleanupStats
             (if bool_decide (0 < total)
              then (inject_Z passed / inject_Z total * 100)%Q else 100%Q)
             total passed failed)))
  end.

End Readers.

End Metrics.

(** * Specification vocabulary and example data *)

(** An integer that is a double: as a multiple of 2^-1074 it has no bits
    below the last of its 53 significant ones. *)
Definition is_double (h : Z) : Prop :=
  (h * 2 ^ 1074) mod 2 ^ Z.max (Z.log2 (h * 2 ^ 1074) - 52) 0 = 0.

(** The double written 66.66666666666667. *)
Definition example_latency : Q := 4691249611844267 # 70368744177664.

(** The value of a binary64 number of the Standard Library's specification
    of IEEE 754 arithmetic. *)
Definition binary64_value (x : SpecFloat.spec_float) : Float.float :=
  match x with
  | SpecFloat.S754_zero _ => Float.Finite 0
  | SpecFloat.S754_infinity false => Float.PosInf
  | SpecFloat.S754_infinity true => Float.NegInf
  | SpecFloat.S754_nan => Float.NaN
  | SpecFloat.S754_finite s m e =>
      Float.Finite
        (Qred (inject_Z (if s then Zneg m else Zpos m)
               * (if Z.leb 0 e then inject_Z (2 ^ e)
                  else 1 / inject_Z (2 ^ (- e)))))
  end.

Definition same_float (x y : Float.float) : bool :=
  match x, y with
  | Float.Finite a, Float.Finite b => Qeq_bool a b
  | Float.PosInf, Float.PosInf | Float.NegInf, Float.NegInf
  | Float.NaN, Float.NaN => true
  | _, _ => false
  end.

(** Sum, product and quotient of two binary64 numbers are the same in
    [Float] and in the Standard Library's specification. *)
Definition binary64_agrees (x y : SpecFloat.spec_float) : bool :=
  same_float (Float.add (binary64_value x) (binary64_value y))
    (binary64_value (SpecFloat.SFadd 53 1024 x y))
  && same_float (Float.mul (binary64_value x) (binary64_value y))
       (binary64_value (SpecFloat.SFmul 53 1024 x y))
  && match Float.div (binary64_value x) (binary64_value y) with
     | Ret q => same_float q (binary64_value (SpecFloat.SFdiv 53 1024 x y))
     | Raise _ => false
     end.

(** The doubles 66.66666666666667, 0.3, 10.0, 100.0, -93.33333333333333
    and 0.2. *)
Definition example_doubles : list SpecFloat.spec_float :=
  [ SpecFloat.S754_finite false 4691249611844267 (-46);
    SpecFloat.S754_finite false 5404319552844595 (-54);
    SpecFloat.S754_finite false 5629499534213120 (-49);
    SpecFloat.S754_finite false 7036874417766400 (-46);
    SpecFloat.S754_finite true 6567749456581973 (-46);
    SpecFloat.S754_finite false 3602879701896397 (-54) ].

(** Example data: a store with one registered worker whose item carries no
    metadata attribute. *)
Definition example_store : StateManager.Store :=
  StateManager.mkStore
    {[ "i-1" := list_to_map [ ("instance_id", Dynamo.AStr "i-1");
                              ("region", Dynamo.AStr "us-east-1");
                              ("state", Dynamo.AStr "available") ] ]}
    ∅ ∅ ∅.

(** The state attribute of a worker's row. *)
Definition state_attr (st : StateManager.Store) (instance_id : string)
    : option Dynamo.attr :=
  StateManager.gpu_instances_table st !! instance_id ≫= (.!! "state").

(** Example data: a worker is registered at time 100 and marked available,
    with three queued requests, at time 150. *)
Definition example_registered : StateManager.Store :=
  snd (StateManager.update_instance_state false 150 "i-1" "available" (Some 3)
         (snd (StateManager.register_instance false 100 "i-1" "us-east-1"
                 "model-a" "10.0.1.5" "subnet-1" "us-east-1a" None
                 (StateManager.mkStore ∅ ∅ ∅ ∅)))).

(** A routing row as [_update_routing_health] leaves it: queue depth 0 and
    the catch-all subnet. *)
Definition reset_row (st : StateManager.Store) (instance_id : string) : Prop :=
  exists row,
    StateManager.routing_state_table st !! instance_id = Some row
    /\ row !! "queue_depth" = Some (Dynamo.AInt 0)
    /\ row !! "subnet_cidr" = Some (Dynamo.AStr "0.0.0.0/0").

(** Example data: worker "i-1" is available; its routing row carries the
    queue depth 5 reported by heartbeat and its registered subnet. *)
Definition example_routed : StateManager.Store :=
  snd (StateManager.update_routing_state false 155 "i-1" "us-east-1" 44 5 120
         "healthy" "10.0.1.0/24" example_registered).

Definition example_monitor : HealthMonitor.Monitor :=
  HealthMonitor.mkMonitor "us-east-1" 3 ∅.

Definition example_probes (instance_id : string) : HealthMonitor.probe :=
  HealthMonitor.Responded 200 (inr (Some 5)) 20.

(** [healthy / total] of a list of instance health results. *)
Definition healthy_ratio (healths : list HealthMonitor.InstanceHealth) : Q :=
  (inject_Z (HealthMonitor.count_status HealthMonitor.HEALTHY healths)
   / inject_Z (Z.of_nat (length healths)))%Q.

(** Example data: five probed workers, four of them healthy. *)
Definition example_health (i : string) (s : HealthMonitor.HealthStatus)
    : HealthMonitor.InstanceHealth :=
  HealthMonitor.mkInstanceHealth i "us-east-1" s 160 0 20 None.

Definition example_four_of_five : list HealthMonitor.InstanceHealth :=
  [ example_health "i-1" HealthMonitor.HEALTHY;
    example_health "i-2" HealthMonitor.HEALTHY;
    example_health "i-3" HealthMonitor.DEGRADED;
    example_health "i-4" HealthMonitor.HEALTHY;
    example_health "i-5" HealthMonitor.HEALTHY ].

(** The healthy ratio as [check_recovery] computes it: 0 for a region
    without instances. *)
Definition observed_ratio (region_health : HealthMonitor.RegionHealth) : Q :=
  if bool_decide (0 < HealthMonitor.rh_total_instances region_health)
  then Failover.ratio_of region_health else 0%Q.

(** The transitions one reading of a region health can make. *)
Inductive fsm_step : Failover.FailoverState -> Failover.FailoverState -> Prop :=
  | step_stay s : fsm_step s s
  | step_degrade : fsm_step Failover.NORMAL Failover.DEGRADED
  | step_failover s :
      s ≠ Failover.FAILOVER_ACTIVE -> fsm_step s Failover.FAILOVER_ACTIVE
  | step_recovering : fsm_step Failover.FAILOVER_ACTIVE Failover.RECOVERING
  | step_recovered : fsm_step Failover.RECOVERING Failover.NORMAL.

(** Example data: a controller with the default thresholds, in
    FAILOVER_ACTIVE, and a region health with nine of ten workers healthy. *)
Definition example_failed_over : Failover.FailoverHandler :=
  Failover.set_failover_state Failover.FAILOVER_ACTIVE
    (Failover.init "us-east-1").

Definition example_recovered_health : HealthMonitor.RegionHealth :=
  HealthMonitor.mkRegionHealth "us-east-1" HealthMonitor.HEALTHY 9 10 20 160
    None.

(** Example data: a controller in FAILOVER_ACTIVE whose recovery threshold
    (0.4) lies below its degraded threshold (0.5), and the health results of
    twenty workers of which nine are healthy. *)
Definition example_low_recovery : Failover.FailoverHandler :=
  Failover.mkFailoverHandler "us-east-1" (5 # 10) (3 # 10) (4 # 10)
    Failover.FAILOVER_ACTIVE [].

Definition example_nine_of_twenty : list HealthMonitor.InstanceHealth :=
  replicate 9 (example_health "i-h" HealthMonitor.HEALTHY)
  ++ replicate 11 (example_health "i-u" HealthMonitor.UNHEALTHY).

Definition example_partial_health : HealthMonitor.RegionHealth :=
  HealthMonitor.calculate_region_health "us-east-1" 160
    example_nine_of_twenty.

(** The instances [select_instance] reads, and those that pass its filter. *)
Definition read_set (r : Router.RegionalRouter) (model_pool : string)
    : list Router.Instance :=
  Router.get_instances_by_region_and_model (Router.registry r)
    (Router.region r) model_pool.

Definition candidates (r : Router.RegionalRouter) (model_pool : string)
    : list Router.Instance :=
  filter (fun i => Router.is_healthy i = true) (read_set r model_pool).

(** [w] is the first element of [l] with the greatest key. *)
Definition first_greatest {A} (key : A -> Z) (w : A) (l : list A) : Prop :=
  exists before after : list A,
    l = (before ++ w :: after)%list
    /\ (forall c, c ∈ before -> key c < key w)
    /\ (forall c, c ∈ after -> key c <= key w).

(** Example data: the router's cache. *)
Definition example_worker (i : string) (health routing queue : Z)
    : Router.Instance :=
  Router.mkInstance i (Some "10.0.1.5") "us-east-1" "model-a" (Some "ready")
    (Some health) (Some routing) queue 120 "10.0.1.0/24".

(** Example data: two ready workers; the better one refuses connections,
    the other one would answer. *)
Definition example_pair : list Router.Instance :=
  [ example_worker "i-a" 100 90 0; example_worker "i-b" 100 80 0 ].

Definition example_upstream (instance_id : string) : Router.reply :=
  if bool_decide (instance_id = "i-a") then Router.ConnectionError
  else Router.Response "ok" 200.

(** The query of [metric_name] finds no sample, in any region. *)
Definition no_samples (fault : string -> bool) (now : Z)
    (st : StateManager.Store) (metric_name : string) (minutes : Z) : Prop :=
  forall region,
    region ∈ Metrics.regions ->
    StateManager.get_metrics (fault region) now metric_name region minutes st
    = [].

(** Consecutive elements of [l] are at least [c] apart, and the first is at
    least [c] after [prev]. *)
Fixpoint gapped (c : Q) (prev : Q) (l : list (Autoscaler.Action * Q)) : Prop :=
  match l with
  | [] => True
  | (_, t) :: l' => (prev + c <= t)%Q /\ gapped c t l'
  end.

(** What a call of [should_scale_up] or [should_scale_down] guarantees when
    the state [d] it is given holds the stored last scale time. *)
Definition gate_spec (time_at : nat -> Q) (self : Autoscaler.AutoScaler)
    (d : Autoscaler.dict) (w : Autoscaler.World)
    (out : py (bool * Autoscaler.dict) * Autoscaler.World) : Prop :=
  let '(r, w') := out in
  (Autoscaler.reads w <= Autoscaler.reads w')%nat
  /\ Autoscaler.stored_last_scale_time w' = Autoscaler.last_scale_time d
  /\ (forall b d', r = Ret (b, d') ->
        Autoscaler.last_scale_time d' = Autoscaler.last_scale_time d)
  /\ (forall d', r = Ret (true, d') ->
        exists last,
          Autoscaler.as_number (Autoscaler.last_scale_time d) = Ret last
          /\ (last + Autoscaler.cooldown_of self
              <= time_at (Autoscaler.reads w))%Q).

(** What [scale_up] and [scale_down] guarantee: a performed action stores
    the time it read as the last scale time, and one that is not performed
    leaves the stored last scale time as it was. *)
Definition action_spec (time_at : nat -> Q) (w : Autoscaler.World)
    (out : py bool * Autoscaler.World) : Prop :=
  let '(r, w') := out in
  (r = Ret true
   /\ Autoscaler.stored_last_scale_time w'
      = Autoscaler.SNum (time_at (Autoscaler.reads w)))
  \/ (r = Ret false
      /\ Autoscaler.stored_last_scale_time w'
         = Autoscaler.stored_last_scale_time w).

(** What one run guarantees about the stored last scale time. *)
Definition run_spec (time_at : nat -> Q) (self : Autoscaler.AutoScaler)
    (w : Autoscaler.World)
    (out : py (option Autoscaler.Action) * Autoscaler.World) : Prop :=
  let '(r, w') := out in
  exists act,
    r = Ret act
    /\ match act with
       | None =>
           Autoscaler.stored_last_scale_time w'
           = Autoscaler.stored_last_scale_time w
       | Some _ =>
           exists last k0 k,
             Autoscaler.as_number (Autoscaler.stored_last_scale_time w)
             = Ret last
             /\ (last + Autoscaler.cooldown_of self <= time_at k0)%Q
             /\ (k0 <= k)%nat
             /\ Autoscaler.stored_last_scale_time w'
                = Autoscaler.SNum (time_at k)
       end.

(** Example data: the clock advances by 100 s at every reading; five runs
    under a load of 100 RPS, with three and then four workers. *)
Definition example_clock (n : nat) : Q := inject_Z (1000 + 100 * Z.of_nat n).

Definition example_fleet (n : nat) : list Autoscaler.GpuInstance :=
  (fun i => Autoscaler.mkGpuInstance ("i-" +:+ pretty i) (Some 50%Q))
  <$> seq 1 n.

Definition example_load : list (Q * list Autoscaler.GpuInstance) :=
  [ (100%Q, example_fleet 3); (100%Q, example_fleet 3);
    (100%Q, example_fleet 4); (100%Q, example_fleet 4);
    (100%Q, example_fleet 4) ].

(** A state store that answers every read with the row as last written and
    never fails. *)
Definition example_fresh (n : nat) : Autoscaler.row_read := Autoscaler.Fresh.

Definition example_no_failure (n : nat) : bool := false.

(** Example data: the clock advances by 30 s at every reading; six runs
    under a load of 100 RPS, with three and then four workers; the state
    store's call number 11, the read of the scaling-state row in the run
    that follows the first action, is not answered. *)
Definition example_slow_clock (n : nat) : Q :=
  inject_Z (1000 + 30 * Z.of_nat n).

Definition example_sustained_load : list (Q * list Autoscaler.GpuInstance) :=
  replicate 3 (100%Q, example_fleet 3) ++ replicate 3 (100%Q, example_fleet 4).

Definition example_outage (n : nat) : Autoscaler.row_read :=
  if bool_decide (n = 11%nat) then Autoscaler.Unavailable
  else Autoscaler.Fresh.

(** * Properties *)

(** ** Rounding to the nearest double *)

Lemma nearest_even_nonneg (a b : Z) :
  0 <= a -> 0 < b -> 0 <= Float.nearest_even a b.
Proof.
  intros Ha Hb. unfold Float.nearest_even.
  pose proof (Z.div_pos a b Ha Hb).
  repeat destruct (_ : bool); lia.
Qed.

Lemma nearest_even_le (a b m : Z) :
  0 <= a -> 0 < b -> a <= m * b -> Float.nearest_even a b <= m.
Proof.
  intros Ha Hb Hle. unfold Float.nearest_even.
  pose proof (Z.div_mod a b ltac:(lia)) as Hdiv.
  pose proof (Z.mod_pos_bound a b Hb) as Hmod.
  assert (Hq : a / b <= m) by (apply Z.div_le_upper_bound; lia).
  destruct (Z.ltb_spec (2 * (a mod b)) b) as [Hlow | Hhigh]; [exact Hq |].
  assert (a / b < m) by nia.
  repeat destruct (_ : bool); lia.
Qed.

Lemma round_grid_nonneg (n d : Z) :
  0 <= n -> 0 < d -> 0 <= Float.round_grid n d.
Proof.
  intros Hn Hd. unfold Float.round_grid.
  apply Z.mul_nonneg_nonneg; [| apply Z.pow_nonneg; lia].
  apply nearest_even_nonneg; [lia |].
  apply Z.mul_pos_pos; [exact Hd |]. apply Z.pow_pos_nonneg; lia.
Qed.

(** A rounded value does not pass a double above the exact one: [g] is a
    double when its bits below the last place are zero. *)
Lemma round_grid_le (n d g : Z) :
  0 <= n -> 0 < d -> 0 < g ->
  (2 ^ Z.max (Z.log2 g - 52) 0 | g) ->
  n * 2 ^ 1074 <= g * d ->
  Float.round_grid n d <= g.
Proof.
  intros Hn Hd Hg [m Hm] Hle. unfold Float.round_grid.
  set (a := n * 2 ^ 1074) in *.
  assert (Ha : 0 <= a) by (unfold a; apply Z.mul_nonneg_nonneg; lia).
  assert (Hfloor : a / d <= g) by (apply Z.div_le_upper_bound; lia).
  assert (H0 : 0 <= a / d) by (apply Z.div_pos; lia).
  set (sh := Z.max (Z.log2 (a / d) - 52) 0).
  set (shg := Z.max (Z.log2 g - 52) 0) in *.
  assert (Hsh : 0 <= sh) by (unfold sh; lia).
  assert (Hmono : sh <= shg).
  { unfold sh, shg. pose proof (Z.log2_le_mono (a / d) g Hfloor). lia. }
  assert (Hpow : 0 < 2 ^ sh) by (apply Z.pow_pos_nonneg; lia).
  assert (Hb : 0 < d * 2 ^ sh) by (apply Z.mul_pos_pos; lia).
  destruct (Z.eq_dec sh shg) as [Heq | Hne].
  - (* the same binade *)
    rewrite Hm, <- Heq.
    apply Z.mul_le_mono_nonneg_r; [lia |].
    apply nearest_even_le; [exact Ha | exact Hb |].
    rewrite Hm, <- Heq in Hle. lia.
  - (* a lower binade: the rounded value is at most its upper end *)
    assert (Hlt : sh < shg) by lia.
    assert (Hfloor_lt : a / d < 2 ^ (sh + 53)).
    { destruct (Z.eq_dec (a / d) 0) as [Hz | Hnz].
      - rewrite Hz. apply Z.pow_pos_nonneg; lia.
      - pose proof (Z.log2_spec (a / d) ltac:(lia)) as [_ Hup].
        eapply Z.lt_le_trans; [exact Hup |].
        apply Z.pow_le_mono_r; [lia |]. unfold sh. lia. }
    assert (Ha_lt : a < 2 ^ (sh + 53) * d).
    { pose proof (Z.div_mod a d ltac:(lia)) as Hdiv.
      pose proof (Z.mod_pos_bound a d Hd) as Hmod. nia. }
    assert (Hne_le : Float.nearest_even a (d * 2 ^ sh) <= 2 ^ 53).
    { apply nearest_even_le; [exact Ha | exact Hb |].
      rewrite Z.pow_add_r in Ha_lt by lia. nia. }
    assert (Hglog : 2 ^ (shg + 52) <= g).
    { pose proof (Z.log2_spec g Hg) as [Hlow _].
      eapply Z.le_trans; [| exact Hlow].
      apply Z.pow_le_mono_r; [lia |]. unfold shg in *. lia. }
    eapply Z.le_trans; [| exact Hglog].
    eapply Z.le_trans.
    + apply Z.mul_le_mono_nonneg_r; [lia | exact Hne_le].
    + rewrite <- Z.pow_add_r by lia.
      apply Z.pow_le_mono_r; lia.
Qed.

Lemma Qred_num_nonneg (x : Q) : (0 <= x)%Q -> 0 <= Qnum (Qred x).
Proof.
  intros H. rewrite <- (Qred_correct x) in H.
  unfold Qle in H. cbn in H. lia.
Qed.

Lemma Qred_num_nonpos (x : Q) : (x <= 0)%Q -> Qnum (Qred x) <= 0.
Proof.
  intros H. rewrite <- (Qred_correct x) in H.
  unfold Qle in H. cbn in H. lia.
Qed.

Lemma rnd_nonneg (x : Q) : (0 <= x)%Q -> (0 <= Float.rnd x)%Q.
Proof.
  intros H. unfold Float.rnd. rewrite Qred_correct.
  pose proof (Qred_num_nonneg x H) as Hn.
  unfold Qle. cbn.
  pose proof (round_grid_nonneg (Z.abs (Qnum (Qred x)))
                (Zpos (Qden (Qred x))) ltac:(lia) ltac:(lia)).
  nia.
Qed.

Lemma rnd_nonpos (x : Q) : (x <= 0)%Q -> (Float.rnd x <= 0)%Q.
Proof.
  intros H. unfold Float.rnd. rewrite Qred_correct.
  pose proof (Qred_num_nonpos x H) as Hn.
  unfold Qle. cbn.
  pose proof (round_grid_nonneg (Z.abs (Qnum (Qred x)))
                (Zpos (Qden (Qred x))) ltac:(lia) ltac:(lia)).
  nia.
Qed.

Lemma rnd_le (x : Q) (h : Z) :
  (0 <= x)%Q -> (x <= inject_Z h)%Q -> 0 < h -> is_double h ->
  (Float.rnd x <= inject_Z h)%Q.
Proof.
  intros H0 Hle Hh Hdouble. unfold Float.rnd. rewrite Qred_correct.
  pose proof (Qred_num_nonneg x H0) as Hn.
  rewrite <- (Qred_correct x) in Hle.
  destruct (Qred x) as [n d]. cbn [Qnum Qden] in *.
  unfold Qle in Hle |- *. cbn in Hle |- *.
  assert (Hpos : 0 < 2 ^ 1074) by (apply Z.pow_pos_nonneg; lia).
  assert (Hdiv : (2 ^ Z.max (Z.log2 (h * 2 ^ 1074) - 52) 0 | h * 2 ^ 1074)).
  { apply Z.mod_divide; [| exact Hdouble].
    apply Z.pow_nonzero; lia. }
  pose proof (round_grid_le (Z.abs n) (Zpos d) (h * 2 ^ 1074)
                ltac:(lia) ltac:(lia) ltac:(lia) Hdiv) as Hg.
  rewrite Z.abs_eq in * by lia.
  specialize (Hg ltac:(nia)).
  pose proof (round_grid_nonneg n (Zpos d) Hn ltac:(lia)).
  change (Z.pos (2 ^ 1074)) with (2 ^ 1074).
  destruct (Z.eq_dec n 0) as [-> | Hnz]; [cbn; nia |].
  rewrite Z.sgn_pos by lia. nia.
Qed.

Lemma rnd_comp (x y : Q) : (x == y)%Q -> Float.rnd x = Float.rnd y.
Proof.
  intros H. unfold Float.rnd. now rewrite (Qred_complete x y H).
Qed.

Lemma Qle_bool_false (x y : Q) : Qle_bool x y = false <-> (y < x)%Q.
Proof.
  split; intros H.
  - apply Qnot_le_lt. intros Hle. apply Qle_bool_iff in Hle. congruence.
  - destruct (Qle_bool x y) eqn:E; [| reflexivity].
    apply Qle_bool_iff in E. lra.
Qed.

(** A result between 0 and 100 is delivered as it is rounded. *)
Lemma of_Q_finite (x : Q) :
  (0 <= Float.rnd x <= 100)%Q -> Float.of_Q x = Float.Finite (Float.rnd x).
Proof.
  intros [Hlo Hhi]. unfold Float.of_Q.
  assert (Hbig : (100 < inject_Z (2 ^ 1024))%Q).
  { change 100%Q with (inject_Z 100). rewrite <- Zlt_Qlt.
    apply Z.ltb_lt. vm_compute. reflexivity. }
  assert (Hsmall : (inject_Z (- 2 ^ 1024) < 0)%Q).
  { change 0%Q with (inject_Z 0). rewrite <- Zlt_Qlt.
    apply Z.ltb_lt. vm_compute. reflexivity. }
  rewrite (proj2 (Qle_bool_false _ _)) by lra.
  rewrite (proj2 (Qle_bool_false _ _)) by lra.
  reflexivity.
Qed.

Lemma of_Q_bounded (x : Q) (h : Z) :
  (0 <= x)%Q -> (x <= inject_Z h)%Q -> 0 < h <= 100 -> is_double h ->
  Float.of_Q x = Float.Finite (Float.rnd x)
  /\ (0 <= Float.rnd x <= inject_Z h)%Q.
Proof.
  intros H0 Hle Hh Hdouble.
  pose proof (rnd_nonneg x H0) as Hlo.
  pose proof (rnd_le x h H0 Hle ltac:(lia) Hdouble) as Hhi.
  split; [| split; assumption].
  apply of_Q_finite. split; [exact Hlo |].
  assert (inject_Z h <= 100)%Q
    by (change 100%Q with (inject_Z 100); rewrite <- Zle_Qle; lia).
  lra.
Qed.

(** On the doubles that occur in the example below, and on all pairs of
    them, the operations of [Float] give what the Standard Library's
    specification of binary64 arithmetic gives. *)
Remark float_agrees_with_binary64 :
  forallb (fun x => forallb (binary64_agrees x) example_doubles)
    example_doubles = true.
Proof. vm_compute. reflexivity. Qed.

Lemma is_double_100 : is_double 100.
Proof. vm_compute. reflexivity. Qed.

Lemma is_double_80 : is_double 80.
Proof. vm_compute. reflexivity. Qed.

Lemma is_double_30 : is_double 30.
Proof. vm_compute. reflexivity. Qed.

Lemma py_int_nonneg (x : Q) : (0 <= x)%Q -> py_int x = Qfloor x.
Proof.
  destruct x as [n d]. unfold Qle, py_int, Qfloor. simpl. intros H.
  apply Z.quot_div_nonneg; lia.
Qed.

(** ** The routing score *)

Lemma literal_half : Float.literal (5 # 10) = Float.Finite (1 # 2).
Proof. vm_compute. reflexivity. Qed.

Lemma literal_three_tenths :
  Float.literal (3 # 10) = Float.Finite (Float.rnd (3 # 10)).
Proof. vm_compute. reflexivity. Qed.

Lemma literal_two_tenths :
  Float.literal (2 # 10) = Float.Finite (Float.rnd (2 # 10)).
Proof. vm_compute. reflexivity. Qed.

(** [queue_score * 0.5] is exact: the queue score is one of 0, 10, ...,
    100. *)
Lemma queue_term_spec (queue_depth : Z) :
  0 <= queue_depth ->
  exists half : Z,
    0 <= half <= 50
    /\ Float.of_int (Registry.queue_score queue_depth)
       = Ret (Float.Finite (inject_Z (Registry.queue_score queue_depth)))
    /\ Float.mul
         (Float.Finite (inject_Z (Registry.queue_score queue_depth)))
         (Float.literal (5 # 10))
       = Float.Finite (inject_Z half)
    /\ Float.rnd
         (inject_Z (Z.max 0 (100 - queue_depth * 10)) * Float.rnd (5 # 10))
       = inject_Z half.
Proof.
  intros Hq. unfold Registry.queue_score.
  assert (Hcases : queue_depth = 0 \/ queue_depth = 1 \/ queue_depth = 2
                   \/ queue_depth = 3 \/ queue_depth = 4 \/ queue_depth = 5
                   \/ queue_depth = 6 \/ queue_depth = 7 \/ queue_depth = 8
                   \/ queue_depth = 9 \/ 10 <= queue_depth) by lia.
  destruct Hcases as [-> | [-> | [-> | [-> | [-> | [-> | [-> | [-> | [->
                     | [-> | Hbig]]]]]]]]]].
  11: { rewrite Z.max_l by lia. exists 0.
        split; [lia |]. repeat split; vm_compute; reflexivity. }
  all: eexists (_ : Z); split;
    [| split; [vm_compute; reflexivity
              | split; vm_compute; reflexivity]]; vm_compute; split; discriminate.
Qed.

(** [health_score * 0.2] is exact as well: 20, 10 or 0. *)
Lemma health_term_spec (h : Registry.HealthStatus) :
  exists fifth : Z,
    0 <= fifth <= 20
    /\ Float.of_int (Registry.health_score h)
       = Ret (Float.Finite (inject_Z (Registry.health_score h)))
    /\ Float.mul (Float.Finite (inject_Z (Registry.health_score h)))
         (Float.literal (2 # 10))
       = Float.Finite (inject_Z fifth)
    /\ Float.rnd (inject_Z (Registry.health_score h) * Float.rnd (2 # 10))
       = inject_Z fifth.
Proof.
  destruct h; eexists (_ : Z); split;
    [| split; [vm_compute; reflexivity
              | split; vm_compute; reflexivity]
     | | split; [vm_compute; reflexivity
                | split; vm_compute; reflexivity]
     | | split; [vm_compute; reflexivity
                | split; vm_compute; reflexivity]];
    vm_compute; split; discriminate.
Qed.

(** The latency score of a finite, non-negative latency is a double
    between 0 and 100. *)
Lemma latency_score_spec (avg_latency_ms : Q) :
  (0 <= avg_latency_ms)%Q ->
  exists score,
    Registry.latency_score (Float.Finite avg_latency_ms)
    = Ret (Float.Finite score)
    /\ (score == Qmax 0 (Float.rnd (100 - Float.rnd (avg_latency_ms / 10))))%Q
    /\ (0 <= score <= 100)%Q.
Proof.
  intros Hl. unfold Registry.latency_score, Float.div.
  change (Qeq_bool 10 0) with false. cbv iota. cbn [py_bind].
  assert (Htenth : (0 <= Float.rnd (avg_latency_ms / 10))%Q).
  { apply rnd_nonneg. unfold Qdiv.
    apply Qmult_le_0_compat; [exact Hl | discriminate]. }
  set (tenth := Float.rnd (avg_latency_ms / 10)) in *.
  assert (Hbig : (100 < inject_Z (2 ^ 1024))%Q).
  { change 100%Q with (inject_Z 100). rewrite <- Zlt_Qlt.
    apply Z.ltb_lt. vm_compute. reflexivity. }
  assert (Hsmall : (inject_Z (- 2 ^ 1024) < 0)%Q).
  { change 0%Q with (inject_Z 0). rewrite <- Zlt_Qlt.
    apply Z.ltb_lt. vm_compute. reflexivity. }
  (* the score before [max]: never above 100 *)
  assert (Hdiff : (Float.rnd (100 - tenth) <= 100)%Q).
  { destruct (Qlt_le_dec (100 - tenth) 0) as [Hneg | Hpos].
    - pose proof (rnd_nonpos (100 - tenth) ltac:(lra)). lra.
    - apply (rnd_le (100 - tenth) 100 Hpos); [| lia | exact is_double_100].
      change (inject_Z 100) with 100%Q. lra. }
  assert (Hmax : forall score : Q,
             (score <= 100)%Q ->
             exists l,
               (if Float.ltb (Float.Finite 0) (Float.Finite score)
                then Float.Finite score else Float.Finite 0)
               = Float.Finite l
               /\ (l == Qmax 0 score)%Q /\ (0 <= l <= 100)%Q).
  { intros score Hscore. unfold Float.ltb.
    destruct (Qle_bool score 0) eqn:E; cbn [negb].
    - apply Qle_bool_iff in E. exists 0%Q. split; [reflexivity |].
      split; [| lra]. rewrite Q.max_l; [reflexivity | exact E].
    - apply Qle_bool_false in E. exists score. split; [reflexivity |].
      split; [| lra]. rewrite Q.max_r; [reflexivity | lra]. }
  assert (Hzero : (Float.rnd (100 - tenth) <= 0)%Q ->
                  (0 == Qmax 0 (Float.rnd (100 - tenth)))%Q).
  { intros H. rewrite Q.max_l; [reflexivity | exact H]. }
  assert (Htenth_f :
            (Float.of_Q (avg_latency_ms / 10) = Float.PosInf
             /\ (inject_Z (2 ^ 1024) <= tenth)%Q)
            \/ Float.of_Q (avg_latency_ms / 10) = Float.Finite tenth).
  { unfold Float.of_Q. fold tenth.
    destruct (Qle_bool (inject_Z (2 ^ 1024)) tenth) eqn:Eover.
    - left. split; [reflexivity | now apply Qle_bool_iff].
    - right. now rewrite (proj2 (Qle_bool_false _ _)) by lra. }
  assert (Hscore_f :
            (Float.of_Q (100 - tenth) = Float.NegInf
             /\ (Float.rnd (100 - tenth) <= 0)%Q)
            \/ Float.of_Q (100 - tenth)
               = Float.Finite (Float.rnd (100 - tenth))).
  { unfold Float.of_Q.
    rewrite (proj2 (Qle_bool_false _ _)) by lra.
    destruct (Qle_bool (Float.rnd (100 - tenth)) (inject_Z (- 2 ^ 1024)))
      eqn:Eunder.
    - left. split; [reflexivity |]. apply Qle_bool_iff in Eunder. lra.
    - now right. }
  destruct Htenth_f as [[-> Hover] | ->].
  - (* the quotient overflows: the score is 0 *)
    exists 0%Q. split; [reflexivity |]. split; [| lra].
    apply Hzero. apply rnd_nonpos. lra.
  - unfold Float.sub, Float.neg, Float.add.
    change (100 + - tenth)%Q with (100 - tenth)%Q.
    destruct Hscore_f as [[-> Hunder] | ->].
    + exists 0%Q. split; [reflexivity |]. split; [| lra].
      now apply Hzero.
    + destruct (Hmax _ Hdiff) as (l & -> & Hl1 & Hl2). eauto.
Qed.

(** C1.  For every queue depth >= 0, finite average latency >= 0 and
    health status, [update_routing_metrics] computes the routing score
    0.5 * max(0, 100 - 10 * queue_depth) + 0.3 * max(0, 100 - latency / 10)
    + 0.2 * health_score, with health_score 100, 50 or 0, in double
    precision: the quotient, the difference, each product and each sum is
    rounded to the nearest double ([fl]), and no product is floored.  The
    score is a double between 0 and 100.  The only rounding to an integer
    is the truncation [int(routing_score)] of [update_routing_state]; the
    integer it persists is the floor of the score, lies in [0, 100], and is
    the [routing_score] attribute of the row [update_routing_state] writes.
    [update_routing_metrics] either ends before it writes (the worker is not
    listed, or reading its row raises) or makes exactly this call. *)
Theorem routing_score_formula (queue_depth : Z) (avg_latency_ms : Q)
    (h : Registry.HealthStatus) :
  0 <= queue_depth ->
  (0 <= avg_latency_ms)%Q ->
  let fl := Float.rnd in
  let queue_score := inject_Z (Z.max 0 (100 - queue_depth * 10)) in
  let latency_score := (Qmax 0 (fl (100 - fl (avg_latency_ms / 10))))%Q in
  let health_score :=
    match h with
    | Registry.HEALTHY => 100%Q
    | Registry.DEGRADED => 50%Q
    | Registry.UNHEALTHY => 0%Q
    end in
  exists score,
    Registry.routing_score queue_depth (Float.Finite avg_latency_ms) h
    = Ret (Float.Finite score)
    /\ (score
        == fl (fl (fl (queue_score * fl (5 # 10))
                   + fl (latency_score * fl (3 # 10)))
               + fl (health_score * fl (2 # 10))))%Q
    /\ (0 <= score <= 100)%Q
    /\ py_int score = Qfloor score
    /\ 0 <= py_int score <= 100
    /\ (forall now instance_id region health_status subnet_cidr st,
          exists row,
            StateManager.routing_state_table
              (snd (StateManager.update_routing_state false now instance_id
                      region score queue_depth avg_latency_ms health_status
                      subnet_cidr st)) !! instance_id = Some row
            /\ row !! "routing_score" = Some (Dynamo.AInt (py_int score)))
    /\ (forall self_region fault_query fault_routing now instance_id st,
          let result :=
            Registry.update_routing_metrics self_region fault_query
              fault_routing now instance_id queue_depth
              (Float.Finite avg_latency_ms) h st in
          result = Ret (false, st)
          \/ (exists e, result = Raise e)
          \/ (exists subnet_cidr,
                result
                = Ret (StateManager.update_routing_state fault_routing now
                         instance_id self_region score queue_depth
                         avg_latency_ms (Registry.HealthStatus_value h)
                         subnet_cidr st))).
Proof.
  intros Hq Hl fl queue_score latency_score health_score.
  destruct (queue_term_spec queue_depth Hq)
    as (half & Hhalf & Hqint & Hqmul & Hqrnd).
  destruct (health_term_spec h) as (fifth & Hfifth & Hhint & Hhmul & Hhrnd).
  destruct (latency_score_spec avg_latency_ms Hl)
    as (l & Hlat & Hleq & Hlrange).
  (* the latency product *)
  assert (Hthree : (0 <= Float.rnd (3 # 10))%Q /\ (100 * Float.rnd (3 # 10) <= 30)%Q)
    by (vm_compute; split; discriminate).
  destruct (of_Q_bounded (l * Float.rnd (3 # 10)) 30) as [Hprod Hprange];
    [nra | change (inject_Z 30) with 30%Q; nra | lia | exact is_double_30 |].
  change (inject_Z 30) with 30%Q in Hprange.
  set (product := Float.rnd (l * Float.rnd (3 # 10))) in *.
  (* the first sum *)
  assert (Hhalf' : (0 <= inject_Z half <= 50)%Q).
  { change 0%Q with (inject_Z 0). change 50%Q with (inject_Z 50).
    rewrite <- !Zle_Qle. exact Hhalf. }
  destruct (of_Q_bounded (inject_Z half + product) 80) as [Hsum1 Hs1range];
    [lra | change (inject_Z 80) with 80%Q; lra | lia | exact is_double_80 |].
  change (inject_Z 80) with 80%Q in Hs1range.
  set (sum1 := Float.rnd (inject_Z half + product)) in *.
  (* the second sum *)
  assert (Hfifth' : (0 <= inject_Z fifth <= 20)%Q).
  { change 0%Q with (inject_Z 0). change 20%Q with (inject_Z 20).
    rewrite <- !Zle_Qle. exact Hfifth. }
  destruct (of_Q_bounded (sum1 + inject_Z fifth) 100) as [Hsum2 Hs2range];
    [lra | change (inject_Z 100) with 100%Q; lra | lia | exact is_double_100 |].
  change (inject_Z 100) with 100%Q in Hs2range.
  set (score := Float.rnd (sum1 + inject_Z fifth)) in *.
  assert (Hscore : Registry.routing_score queue_depth
                     (Float.Finite avg_latency_ms) h
                   = Ret (Float.Finite score)).
  { unfold Registry.routing_score, Registry.weighted_terms.
    rewrite Hlat, Hqint, Hhint. cbn [py_bind].
    rewrite Hqmul, Hhmul, literal_three_tenths.
    unfold Float.mul, Float.add. fold product. rewrite Hprod.
    fold sum1. rewrite Hsum1. now rewrite Hsum2. }
  exists score. split; [exact Hscore |]. split; [| split; [exact Hs2range |]].
  { (* the formula *)
    unfold score, sum1, product, fl, queue_score.
    rewrite Hqrnd.
    assert (Hh : Registry.health_score h
                 = match h with
                   | Registry.HEALTHY => 100
                   | Registry.DEGRADED => 50
                   | Registry.UNHEALTHY => 0
                   end) by reflexivity.
    assert (Hhq : health_score = inject_Z (Registry.health_score h))
      by (destruct h; reflexivity).
    rewrite Hhq, Hhrnd.
    rewrite (rnd_comp (latency_score * Float.rnd (3 # 10))
               (l * Float.rnd (3 # 10))).
    - reflexivity.
    - unfold latency_score, fl. rewrite Hleq. reflexivity. }
  assert (Hint : py_int score = Qfloor score)
    by (apply py_int_nonneg; lra).
  split; [exact Hint |]. split; [| split].
  - rewrite Hint. split.
    + rewrite <- (Qfloor_Z 0). apply Qfloor_resp_le.
      change (inject_Z 0) with 0%Q. lra.
    + rewrite <- (Qfloor_Z 100). apply Qfloor_resp_le.
      change (inject_Z 100) with 100%Q. lra.
  - intros now instance_id region health_status subnet_cidr st.
    eexists. split.
    + cbn. unfold Dynamo.put_item. apply lookup_insert_eq.
    + reflexivity.
  - intros self_region fault_query fault_routing now instance_id st.
    cbn zeta. unfold Registry.update_routing_metrics.
    rewrite Hscore. cbn [py_bind].
    destruct (Registry.find_instance _ _) as [[inst |] | e]; cbn [py_bind];
      [| now left | right; left; eauto].
    destruct (bool_decide (inst = ∅)); [now left |].
    destruct (Registry.instance_subnet_cidr inst) as [cidr | e];
      cbn [py_bind]; [| right; left; eauto].
    right; right. exists cidr. reflexivity.
Qed.

(** On a row written by [register_instance] the call does not get as far
    as persisting: the metadata attribute holds a JSON string, and reading
    the subnet from it raises. *)
Remark update_routing_metrics_registered_row_raises :
  Registry.update_routing_metrics "us-east-1" false false 160 "i-1" 1
    (Float.Finite 20) Registry.HEALTHY example_registered
  = Raise AttributeError.
Proof. vm_compute. reflexivity. Qed.

(** The products are not floored.  At queue depth 0, latency
    66.66666666666667 ms and a healthy worker they are 50.0,
    27.999999999999996 and 20.0, whose floors add up to 97; their sum in
    double precision is 98.0, and 98 is what [int] makes of it. *)
Lemma routing_score_truncates_once :
  Registry.weighted_terms 0 (Float.Finite example_latency) Registry.HEALTHY
  = Ret (Float.Finite 50, Float.Finite (7881299347898367 # 281474976710656),
         Float.Finite 20)
  /\ Qfloor 50 + Qfloor (7881299347898367 # 281474976710656) + Qfloor 20 = 97
  /\ Registry.routing_score 0 (Float.Finite example_latency) Registry.HEALTHY
     = Ret (Float.Finite 98)
  /\ Float.to_int (Float.Finite 98) = Ret 98.
Proof.
  split; [vm_compute; reflexivity |]. split; [vm_compute; reflexivity |].
  split; vm_compute; reflexivity.
Qed.

Lemma routing_score_formula_witness :
  exists score,
    Registry.routing_score 1 (Float.Finite 20) Registry.HEALTHY
    = Ret (Float.Finite score)
    /\ (0 <= score <= 100)%Q
    /\ py_int score = 94.
Proof.
  destruct (routing_score_formula 1 20 Registry.HEALTHY)
    as (score & Hscore & _ & Hrange & _); [lia | discriminate |].
  exists score. split; [exact Hscore |]. split; [exact Hrange |].
  assert (Hrun : Registry.routing_score 1 (Float.Finite 20) Registry.HEALTHY
                 = Ret (Float.Finite (3321404725185741 # 35184372088832)))
    by (vm_compute; reflexivity).
  rewrite Hrun in Hscore. injection Hscore as <-. reflexivity.
Defined.

(** ** Registration and heartbeat *)

Lemma register_instance_item_state (now : Z)
    (instance_id region model_pool ip_address subnet_id
     availability_zone : string)
    (metadata : option (list (string * string))) :
  StateManager.register_instance_item now instance_id region model_pool
    ip_address subnet_id availability_zone metadata !! "state"
  = Some (Dynamo.AStr "launching").
Proof. reflexivity. Qed.

(** C4, as the code has it.  [register_instance] answers [True] exactly when
    the table call does not fail; it then stores a fresh item in state
    [launching] under the instance id, whether or not the id was stored
    before (a repeated call replaces the stored row and is not reported as a
    conflict), and leaves every other row alone.  When the table call fails
    the answer is [False] and the store is unchanged. *)
Theorem register_instance_puts_launching_row (fault : bool) (now : Z)
    (instance_id region model_pool ip_address subnet_id
     availability_zone : string)
    (metadata : option (list (string * string))) (st : StateManager.Store) :
  let result :=
    StateManager.register_instance fault now instance_id region model_pool
      ip_address subnet_id availability_zone metadata st in
  let item :=
    StateManager.register_instance_item now instance_id region model_pool
      ip_address subnet_id availability_zone metadata in
  fst result = negb fault
  /\ (if fault then snd result = st
      else
        StateManager.gpu_instances_table (snd result) !! instance_id = Some item
        /\ item !! "state" = Some (Dynamo.AStr "launching")
        /\ forall other : string,
             other ≠ instance_id ->
             StateManager.gpu_instances_table (snd result) !! other
             = StateManager.gpu_instances_table st !! other).
Proof.
  unfold StateManager.register_instance. destruct fault; cbn.
  - split; reflexivity.
  - split; [reflexivity |]. split; [| split].
    + unfold Dynamo.put_item. apply lookup_insert_eq.
    + reflexivity.
    + intros other Hne. unfold Dynamo.put_item.
      apply lookup_insert_ne. congruence.
Qed.

(** C4, counterexample to the claim as stated: registering the stored id
    "i-1" again answers [True], not a conflict, and the stored row changes
    (its state goes from [available] back to [launching]). *)
Lemma register_instance_repeat_overwrites :
  let again :=
    StateManager.register_instance false 200 "i-1" "us-east-1" "model-a"
      "10.0.1.5" "subnet-1" "us-east-1a" None example_registered in
  state_attr example_registered "i-1" = Some (Dynamo.AStr "available")
  /\ fst again = true
  /\ state_attr (snd again) "i-1" = Some (Dynamo.AStr "launching")
  /\ StateManager.gpu_instances_table (snd again) !! "i-1"
     ≠ StateManager.gpu_instances_table example_registered !! "i-1".
Proof.
  cbv zeta. split; [| split; [| split]].
  - vm_compute. reflexivity.
  - reflexivity.
  - vm_compute. reflexivity.
  - intros H.
    apply (f_equal (fun o : option Dynamo.item => o ≫= (.!! "state"))) in H.
    vm_compute in H. discriminate.
Qed.

Lemma heartbeat_sets_other (now queue_depth : Z) (a : string) :
  a ≠ "last_heartbeat" -> a ≠ "queue_depth" ->
  (list_to_map [ ("last_heartbeat", Dynamo.AInt now);
                 ("queue_depth", Dynamo.AInt queue_depth) ] : Dynamo.item)
    !! a = None.
Proof.
  intros H1 H2. cbn.
  rewrite lookup_insert_ne by congruence.
  rewrite lookup_insert_ne by congruence.
  apply lookup_empty.
Qed.

(** C5.  For a stored worker row, [heartbeat] leaves every attribute other
    than [last_heartbeat] and [queue_depth] as it was, in particular
    [state]; when the table call succeeds these two attributes hold the
    time and the reported queue depth; no other row and no other table
    changes. *)
Theorem heartbeat_frame (fault : bool) (now : Z) (instance_id : string)
    (queue_depth : Z) (st : StateManager.Store) (row : Dynamo.item) :
  StateManager.gpu_instances_table st !! instance_id = Some row ->
  let result := StateManager.heartbeat fault now instance_id queue_depth st in
  exists row',
    StateManager.gpu_instances_table (snd result) !! instance_id = Some row'
    /\ (forall a : string,
          a ≠ "last_heartbeat" -> a ≠ "queue_depth" -> row' !! a = row !! a)
    /\ row' !! "state" = row !! "state"
    /\ (fst result = true ->
        row' !! "last_heartbeat" = Some (Dynamo.AInt now)
        /\ row' !! "queue_depth" = Some (Dynamo.AInt queue_depth))
    /\ (forall other : string,
          other ≠ instance_id ->
          StateManager.gpu_instances_table (snd result) !! other
          = StateManager.gpu_instances_table st !! other)
    /\ StateManager.routing_state_table (snd result)
       = StateManager.routing_state_table st.
Proof.
  intros Hrow. unfold StateManager.heartbeat. destruct fault; cbn.
  - exists row. repeat split; try done.
  - unfold Dynamo.update_item. rewrite Hrow. cbn [default].
    eexists. split; [apply lookup_insert_eq |].
    assert (Hframe : forall a : string,
               a ≠ "last_heartbeat" -> a ≠ "queue_depth" ->
               ((list_to_map [ ("last_heartbeat", Dynamo.AInt now);
                               ("queue_depth", Dynamo.AInt queue_depth) ]
                 : Dynamo.item) ∪ row) !! a = row !! a).
    { intros a H1 H2. apply lookup_union_r.
      now apply heartbeat_sets_other. }
    split; [exact Hframe |]. split; [apply Hframe; discriminate |].
    split; [| split; [| reflexivity]].
    + intros _. split; apply lookup_union_Some_l; reflexivity.
    + intros other Hne. apply lookup_insert_ne. congruence.
Qed.

Lemma update_instance_state_row (now : Z) (instance_id state : string)
    (queue_depth : option Z) (st : StateManager.Store) :
  exists row,
    StateManager.gpu_instances_table
      (snd (StateManager.update_instance_state false now instance_id state
              queue_depth st)) !! instance_id = Some row
    /\ row !! "state" = Some (Dynamo.AStr state).
Proof.
  unfold StateManager.update_instance_state. cbn. unfold Dynamo.update_item.
  eexists. split; [apply lookup_insert_eq |].
  apply lookup_union_Some_l. destruct queue_depth; reflexivity.
Qed.

Lemma heartbeat_frame_witness :
  StateManager.heartbeat false 160 "i-1" 7 example_registered
    = (true, snd (StateManager.heartbeat false 160 "i-1" 7 example_registered))
  /\ state_attr
       (snd (StateManager.heartbeat false 160 "i-1" 7 example_registered))
       "i-1"
     = Some (Dynamo.AStr "available").
Proof.
  split; [reflexivity |].
  destruct (update_instance_state_row 150 "i-1" "available" (Some 3)
              (snd (StateManager.register_instance false 100 "i-1"
                      "us-east-1" "model-a" "10.0.1.5" "subnet-1"
                      "us-east-1a" None (StateManager.mkStore ∅ ∅ ∅ ∅))))
    as (row & Hrow & Hstate0).
  fold example_registered in Hrow.
  destruct (heartbeat_frame false 160 "i-1" 7 example_registered row Hrow)
    as (row' & Hlook & _ & Hstate & _).
  unfold state_attr. rewrite Hlook. cbn. rewrite Hstate. exact Hstate0.
Defined.

(** ** Write-back of the health monitor *)

Lemma _update_routing_health_row (now : Z) (self_region : string)
    (health : HealthMonitor.InstanceHealth) (st : StateManager.Store) :
  reset_row
    (HealthMonitor._update_routing_health false now self_region health st)
    (HealthMonitor.ih_instance_id health).
Proof.
  unfold HealthMonitor._update_routing_health, reset_row.
  destruct (StateManager.update_routing_state _ _ _ _ _ _ _ _ _ _)
    as [ok st'] eqn:E.
  unfold StateManager.update_routing_state in E. injection E as <- <-.
  eexists. split; [apply lookup_insert_eq |]. split; reflexivity.
Qed.

Lemma _update_routing_health_other (fault : bool) (now : Z)
    (self_region : string) (health : HealthMonitor.InstanceHealth)
    (st : StateManager.Store) (other : string) :
  other ≠ HealthMonitor.ih_instance_id health ->
  StateManager.routing_state_table
    (HealthMonitor._update_routing_health fault now self_region health st)
    !! other
  = StateManager.routing_state_table st !! other.
Proof.
  intros Hne. unfold HealthMonitor._update_routing_health,
    StateManager.update_routing_state.
  destruct fault; cbn; [reflexivity |].
  unfold Dynamo.put_item. apply lookup_insert_ne. congruence.
Qed.

Lemma write_back_rows (fault : string -> bool) (now : Z)
    (self_region : string) (healths : list HealthMonitor.InstanceHealth)
    (st : StateManager.Store) (health : HealthMonitor.InstanceHealth) :
  health ∈ healths ->
  fault (HealthMonitor.ih_instance_id health) = false ->
  reset_row (HealthMonitor.write_back fault now self_region healths st)
    (HealthMonitor.ih_instance_id health).
Proof.
  unfold HealthMonitor.write_back.
  induction healths as [| last healths IH] using rev_ind; intros Hin Hfault.
  - inversion Hin.
  - rewrite foldl_snoc.
    destruct (decide (HealthMonitor.ih_instance_id health
                      = HealthMonitor.ih_instance_id last)) as [Heq | Hne].
    + rewrite Heq. rewrite Heq in Hfault. rewrite Hfault.
      apply _update_routing_health_row.
    + apply elem_of_app in Hin as [Hin | Hin].
      * destruct (IH Hin Hfault) as (row & Hrow & Hattrs).
        exists row. split; [| exact Hattrs].
        rewrite _update_routing_health_other by exact Hne. exact Hrow.
      * apply list_elem_of_singleton in Hin. congruence.
Qed.

(** C10.  The row [_update_routing_health] writes for a probed worker has
    queue depth 0 and subnet "0.0.0.0/0" whatever the routing table held for
    that worker before; and after a health cycle ([check_all_instances])
    every worker with a health result, whose write did not fail, has such a
    row. *)
Theorem health_cycle_resets_queue_and_subnet :
  (forall now self_region health st,
     reset_row
       (HealthMonitor._update_routing_health false now self_region health st)
       (HealthMonitor.ih_instance_id health))
  /\ (forall fault_query fault probes completion now mon st healths mon' st'
             health,
        HealthMonitor.check_all_instances fault_query fault probes completion
          now mon st = (Ret healths, mon', st') ->
        health ∈ healths ->
        fault (HealthMonitor.ih_instance_id health) = false ->
        reset_row st' (HealthMonitor.ih_instance_id health)).
Proof.
  split; [apply _update_routing_health_row |].
  intros fault_query fault probes completion now mon st healths mon' st'
    health Hrun Hin Hfault.
  unfold HealthMonitor.check_all_instances in Hrun.
  destruct (StateManager.get_instances_by_region _ _ _ _) as [| i l].
  - injection Hrun as <- <- <-. inversion Hin.
  - destruct (HealthMonitor.submit_probes _ _ _ _) as [[r hs] mon''].
    destruct r as [[] | e]; [| discriminate].
    injection Hrun as <- <- <-.
    now apply write_back_rows.
Qed.

Lemma health_cycle_resets_queue_and_subnet_witness :
  (StateManager.routing_state_table example_routed !! "i-1"
     ≫= (.!! "queue_depth") = Some (Dynamo.AInt 5))
  /\ reset_row
       (snd (HealthMonitor.check_all_instances false (fun _ => false)
               example_probes id 160 example_monitor example_routed))
       "i-1".
Proof.
  split; [vm_compute; reflexivity |].
  destruct (HealthMonitor.check_all_instances false (fun _ => false)
              example_probes id 160 example_monitor example_routed)
    as [[r mon'] st'] eqn:E.
  destruct r as [healths | e]; [| vm_compute in E; discriminate].
  destruct healths as [| health healths]; [vm_compute in E; discriminate |].
  assert (Hid : HealthMonitor.ih_instance_id health = "i-1").
  { apply (f_equal (fun x : py (list HealthMonitor.InstanceHealth)
                              * HealthMonitor.Monitor * StateManager.Store =>
                      match x with
                      | (Ret (h :: _), _, _) => HealthMonitor.ih_instance_id h
                      | _ => ""
                      end)) in E.
    vm_compute in E. symmetry. exact E. }
  rewrite <- Hid.
  apply (proj2 health_cycle_resets_queue_and_subnet _ _ _ _ _ _ _ _ _ _ _ E).
  - left.
  - reflexivity.
Defined.

(** ** Region health *)

(** C6.  [calculate_region_health] answers, for a non-empty list of
    instance health results with ratio = healthy / total: [healthy] when
    ratio >= 0.80 (so also at exactly 0.80), [degraded] when
    0.50 <= ratio < 0.80, and [unhealthy] when ratio < 0.50.  For an empty
    list it answers [unhealthy], with zero counts and the reason
    "No instances available". *)
Theorem calculate_region_health_thresholds (self_region : string) (now : Z) :
  (let empty := HealthMonitor.calculate_region_health self_region now [] in
   HealthMonitor.rh_status empty = HealthMonitor.UNHEALTHY
   /\ HealthMonitor.rh_total_instances empty = 0
   /\ HealthMonitor.rh_healthy_instances empty = 0
   /\ HealthMonitor.rh_degraded_reason empty
      = Some (HealthMonitor.ReasonText "No instances available"))
  /\ forall healths : list HealthMonitor.InstanceHealth,
       healths ≠ [] ->
       let result :=
         HealthMonitor.calculate_region_health self_region now healths in
       HealthMonitor.rh_healthy_instances result
       = HealthMonitor.count_status HealthMonitor.HEALTHY healths
       /\ HealthMonitor.rh_total_instances result = Z.of_nat (length healths)
       /\ ((8 # 10 <= healthy_ratio healths)%Q ->
           HealthMonitor.rh_status result = HealthMonitor.HEALTHY)
       /\ ((5 # 10 <= healthy_ratio healths)%Q ->
           (healthy_ratio healths < 8 # 10)%Q ->
           HealthMonitor.rh_status result = HealthMonitor.DEGRADED)
       /\ ((healthy_ratio healths < 5 # 10)%Q ->
           HealthMonitor.rh_status result = HealthMonitor.UNHEALTHY).
Proof.
  split; [repeat split |].
  intros healths Hne result.
  destruct healths as [| h healths]; [congruence |].
  unfold result, HealthMonitor.calculate_region_health.
  fold (healthy_ratio (h :: healths)).
  set (ratio := healthy_ratio (h :: healths)).
  destruct (Qle_bool 80 (ratio * 100)) eqn:E80; cbn.
  - apply Qle_bool_iff in E80.
    repeat split; try reflexivity; intros; lra.
  - apply Qle_bool_false in E80.
    destruct (Qle_bool 50 (ratio * 100)) eqn:E50; cbn.
    + apply Qle_bool_iff in E50.
      repeat split; try reflexivity; intros; lra.
    + apply Qle_bool_false in E50.
      repeat split; try reflexivity; intros; lra.
Qed.

Lemma calculate_region_health_thresholds_witness :
  (healthy_ratio example_four_of_five == 8 # 10)%Q
  /\ HealthMonitor.rh_status
       (HealthMonitor.calculate_region_health "us-east-1" 160
          example_four_of_five)
     = HealthMonitor.HEALTHY.
Proof.
  split; [reflexivity |].
  apply (proj2 (calculate_region_health_thresholds "us-east-1" 160)
           example_four_of_five).
  - discriminate.
  - vm_compute. discriminate.
Defined.

(** ** Failover state machine *)

Lemma Qlt_bool_false (x y : Q) : (y <= x)%Q -> Failover.Qlt_bool x y = false.
Proof.
  intros H. unfold Failover.Qlt_bool.
  apply (proj2 (Qle_bool_iff y x)) in H. now rewrite H.
Qed.

Lemma initiate_failover_state fault_query fault_scaling metric_raises now
    region region_health h st :
  let h' :=
    snd (fst (Failover.initiate_failover fault_query fault_scaling
                metric_raises now region region_health h st)) in
  Failover.failover_state h' = Failover.failover_state h
  \/ Failover.failover_state h' = Failover.FAILOVER_ACTIVE.
Proof.
  unfold Failover.initiate_failover.
  destruct (Failover.target_region <$> _) as [| t ts]; cbn; [now left |].
  destruct metric_raises; cbn; now right.
Qed.

Lemma initiate_failover_state_time fault_query fault_scaling metric_raises
    now1 now2 region region_health h st :
  Failover.failover_state
    (snd (fst (Failover.initiate_failover fault_query fault_scaling
                 metric_raises now1 region region_health h st)))
  = Failover.failover_state
      (snd (fst (Failover.initiate_failover fault_query fault_scaling
                   metric_raises now2 region region_health h st))).
Proof.
  unfold Failover.initiate_failover.
  destruct (Failover.target_region <$> _) as [| t ts]; cbn; [reflexivity |].
  destruct metric_raises; reflexivity.
Qed.

Lemma check_recovery_state metric_raises region_health h :
  let h' := snd (Failover.check_recovery metric_raises region_health h) in
  Failover.failover_state h' = Failover.failover_state h
  \/ (Failover.failover_state h = Failover.FAILOVER_ACTIVE
      /\ Failover.failover_state h' = Failover.RECOVERING).
Proof.
  unfold Failover.check_recovery.
  destruct (Failover.failover_state h) eqn:E; cbn; try (now left).
  destruct (Qle_bool _ _); [| now left].
  destruct metric_raises; cbn; now right.
Qed.

Lemma complete_recovery_state metric_raises h :
  let h' := snd (Failover.complete_recovery metric_raises h) in
  Failover.failover_state h' = Failover.failover_state h
  \/ (Failover.failover_state h = Failover.RECOVERING
      /\ Failover.failover_state h' = Failover.NORMAL).
Proof.
  unfold Failover.complete_recovery.
  destruct (Failover.failover_state h) eqn:E; cbn; try (now left).
  destruct metric_raises; cbn; now right.
Qed.

Lemma handle_transition_step fault_query fault_scaling metric_raises now
    region_health h st :
  fsm_step (Failover.failover_state h)
    (Failover.failover_state
       (fst (Failover.handle_transition fault_query fault_scaling
               metric_raises now region_health h st))).
Proof.
  unfold Failover.handle_transition.
  destruct (Failover.evaluate_region_health h region_health).
  - (* NORMAL recommended *)
    destruct (Failover.failover_state h) eqn:E; cbn; try (rewrite E; constructor).
    + pose proof (check_recovery_state metric_raises region_health h) as H.
      cbn in H. destruct H as [H | [_ H]]; rewrite H, ?E; constructor.
    + pose proof (complete_recovery_state metric_raises h) as H.
      cbn in H. destruct H as [H | [_ H]]; rewrite H, ?E; constructor.
  - (* DEGRADED recommended *)
    destruct (Failover.failover_state h) eqn:E; cbn; try (rewrite E; constructor).
    constructor.
  - (* FAILOVER_ACTIVE recommended *)
    destruct (Failover.failover_state h) eqn:E; cbn;
      try (rewrite E; constructor);
      destruct (Failover.initiate_failover _ _ _ _ _ _ _ _) as [[r h'] st']
        eqn:Ei;
      pose proof (initiate_failover_state fault_query fault_scaling
                    metric_raises now (Failover.fh_region h) region_health h st)
        as H;
      cbn in H; rewrite Ei in H; cbn in H; cbn;
      destruct H as [H | H]; rewrite H, ?E; constructor; discriminate.
  - cbn. constructor.
Qed.

Lemma iteration_step (t : Failover.Tick)
    (w : Failover.FailoverHandler * HealthMonitor.Monitor * StateManager.Store) :
  fsm_step (Failover.failover_state (fst (fst w)))
    (Failover.failover_state
       (fst (fst (Failover.run_failover_monitor_iteration t w)))).
Proof.
  destruct w as [[h mon] st]. unfold Failover.run_failover_monitor_iteration.
  destruct (HealthMonitor.check_all_instances _ _ _ _ _ _ _) as [[r mon'] st'].
  destruct r as [healths | e]; cbn; [| constructor].
  destruct (Failover.handle_transition _ _ _ _ _ _ _) as [h' st''] eqn:E.
  pose proof (handle_transition_step (Failover.tick_fault_targets t)
                (Failover.tick_fault_scaling t) (Failover.tick_metric_raises t)
                (Failover.tick_now t)
                (HealthMonitor.calculate_region_health
                   (HealthMonitor.region mon') (Failover.tick_now t) healths)
                h st') as H.
  rewrite E in H. exact H.
Qed.

Lemma calculate_region_health_counts (self_region : string) (now : Z)
    (instance_healths : list HealthMonitor.InstanceHealth) :
  instance_healths ≠ [] ->
  let region_health :=
    HealthMonitor.calculate_region_health self_region now instance_healths in
  HealthMonitor.rh_total_instances region_health
  = Z.of_nat (length instance_healths)
  /\ HealthMonitor.rh_healthy_instances region_health
     = HealthMonitor.count_status HealthMonitor.HEALTHY instance_healths.
Proof.
  intros Hsome. unfold HealthMonitor.calculate_region_health.
  destruct instance_healths as [| health healths]; [congruence |].
  destruct (Qle_bool 80 _); [| destruct (Qle_bool 50 _)];
    split; reflexivity.
Qed.

Lemma handle_transition_recovers fault_query fault_scaling metric_raises now
    region_health h st :
  Failover.failover_state h = Failover.FAILOVER_ACTIVE ->
  0 < HealthMonitor.rh_total_instances region_health ->
  (Failover.unhealthy_threshold h <= Failover.recovery_threshold h)%Q ->
  (Failover.degraded_threshold h <= Failover.recovery_threshold h)%Q ->
  (Failover.recovery_threshold h <= Failover.ratio_of region_health)%Q ->
  Failover.failover_state
    (fst (Failover.handle_transition fault_query fault_scaling metric_raises
            now region_health h st))
  = Failover.RECOVERING.
Proof.
  intros Hstate Htotal Hun Hde Hratio.
  unfold Failover.handle_transition, Failover.evaluate_region_health.
  rewrite bool_decide_eq_false_2 by lia.
  rewrite Qlt_bool_false by lra.
  rewrite Qlt_bool_false by lra.
  rewrite (proj2 (Qle_bool_iff _ _) Hratio).
  rewrite Hstate. cbn.
  unfold Failover.check_recovery. rewrite Hstate. cbn.
  rewrite bool_decide_eq_true_2 by lia.
  rewrite (proj2 (Qle_bool_iff _ _) Hratio).
  destruct metric_raises; reflexivity.
Qed.

(** C7.  (0) Whatever the thresholds, [check_recovery] called in
    FAILOVER_ACTIVE with healthy_ratio >= recovery_threshold leaves the
    controller in RECOVERING.  (1) With thresholds ordered as the state
    machine supposes (unhealthy <= recovery and degraded <= recovery, as the
    defaults 0.30, 0.50, 0.80 are), a controller in FAILOVER_ACTIVE that
    reads a region health with at least one instance and healthy_ratio >=
    recovery_threshold is in RECOVERING after the iteration's transition.
    (2) Whatever the thresholds, one iteration of the monitor loop never
    takes FAILOVER_ACTIVE to NORMAL, and (3) an iteration that ends in
    NORMAL started in NORMAL or in RECOVERING.  (4) The state after reading
    a region health does not depend on the time of the reading, and (5) an
    iteration in which no region health is obtained leaves the controller
    as it was.  (6) Statement (1) for a whole iteration of
    [run_failover_monitor_loop]: when the health check of the iteration
    returns results of which the healthy share is at least
    recovery_threshold, a controller in FAILOVER_ACTIVE with ordered
    thresholds ends the iteration in RECOVERING. *)
Theorem failover_recovery_passes_through_recovering :
  (forall metric_raises region_health h,
     Failover.failover_state h = Failover.FAILOVER_ACTIVE ->
     (Failover.recovery_threshold h <= observed_ratio region_health)%Q ->
     Failover.failover_state
       (snd (Failover.check_recovery metric_raises region_health h))
     = Failover.RECOVERING)
  /\ (forall fault_query fault_scaling metric_raises now region_health h st,
     Failover.failover_state h = Failover.FAILOVER_ACTIVE ->
     0 < HealthMonitor.rh_total_instances region_health ->
     (Failover.unhealthy_threshold h <= Failover.recovery_threshold h)%Q ->
     (Failover.degraded_threshold h <= Failover.recovery_threshold h)%Q ->
     (Failover.recovery_threshold h <= Failover.ratio_of region_health)%Q ->
     Failover.failover_state
       (fst (Failover.handle_transition fault_query fault_scaling
               metric_raises now region_health h st))
     = Failover.RECOVERING)
  /\ (forall t w,
        Failover.failover_state (fst (fst w)) = Failover.FAILOVER_ACTIVE ->
        Failover.failover_state
          (fst (fst (Failover.run_failover_monitor_iteration t w)))
        ≠ Failover.NORMAL)
  /\ (forall t w,
        Failover.failover_state
          (fst (fst (Failover.run_failover_monitor_iteration t w)))
        = Failover.NORMAL ->
        Failover.failover_state (fst (fst w)) = Failover.NORMAL
        \/ Failover.failover_state (fst (fst w)) = Failover.RECOVERING)
  /\ (forall fault_query fault_scaling metric_raises now1 now2 region_health
             h st,
        Failover.failover_state
          (fst (Failover.handle_transition fault_query fault_scaling
                  metric_raises now1 region_health h st))
        = Failover.failover_state
            (fst (Failover.handle_transition fault_query fault_scaling
                    metric_raises now2 region_health h st)))
  /\ (forall t h mon st e mon' st',
        HealthMonitor.check_all_instances (Failover.tick_fault_query t)
          (Failover.tick_fault_routing t) (Failover.tick_probes t)
          (Failover.tick_completion t) (Failover.tick_now t) mon st
        = (Raise e, mon', st') ->
        fst (fst (Failover.run_failover_monitor_iteration t (h, mon, st))) = h)
  /\ (forall t h mon st instance_healths mon' st',
        HealthMonitor.check_all_instances (Failover.tick_fault_query t)
          (Failover.tick_fault_routing t) (Failover.tick_probes t)
          (Failover.tick_completion t) (Failover.tick_now t) mon st
        = (Ret instance_healths, mon', st') ->
        instance_healths ≠ [] ->
        Failover.failover_state h = Failover.FAILOVER_ACTIVE ->
        (Failover.unhealthy_threshold h <= Failover.recovery_threshold h)%Q ->
        (Failover.degraded_threshold h <= Failover.recovery_threshold h)%Q ->
        (Failover.recovery_threshold h <= healthy_ratio instance_healths)%Q ->
        Failover.failover_state
          (fst (fst (Failover.run_failover_monitor_iteration t (h, mon, st))))
        = Failover.RECOVERING).
Proof.
  split; [| split; [| split; [| split; [| split; [| split]]]]].
  - intros metric_raises region_health h Hstate Hratio.
    unfold Failover.check_recovery. rewrite Hstate. cbn.
    fold (observed_ratio region_health).
    rewrite (proj2 (Qle_bool_iff _ _) Hratio).
    destruct metric_raises; reflexivity.
  - intros fault_query fault_scaling metric_raises now region_health h st.
    apply handle_transition_recovers.
  - intros t w Hstate Hnormal.
    pose proof (iteration_step t w) as H.
    rewrite Hstate, Hnormal in H. inversion H.
  - intros t w Hnormal.
    pose proof (iteration_step t w) as H.
    rewrite Hnormal in H. inversion H; auto.
  - intros fault_query fault_scaling metric_raises now1 now2 region_health
      h st.
    unfold Failover.handle_transition.
    destruct (Failover.evaluate_region_health h region_health);
      try reflexivity.
    destruct (negb _); [| reflexivity].
    pose proof (initiate_failover_state_time fault_query fault_scaling
                  metric_raises now1 now2 (Failover.fh_region h) region_health
                  h st) as H.
    destruct (Failover.initiate_failover _ _ _ now1 _ _ _ _) as [[r1 h1] st1].
    destruct (Failover.initiate_failover _ _ _ now2 _ _ _ _) as [[r2 h2] st2].
    exact H.
  - intros t h mon st e mon' st' Hraise.
    unfold Failover.run_failover_monitor_iteration. rewrite Hraise.
    reflexivity.
  - intros t h mon st instance_healths mon' st' Hcheck Hsome Hstate Hun Hde
      Hratio.
    unfold Failover.run_failover_monitor_iteration. rewrite Hcheck.
    pose proof (handle_transition_recovers (Failover.tick_fault_targets t)
                  (Failover.tick_fault_scaling t)
                  (Failover.tick_metric_raises t) (Failover.tick_now t)
                  (HealthMonitor.calculate_region_health
                     (HealthMonitor.region mon') (Failover.tick_now t)
                     instance_healths)
                  h st' Hstate) as Hstep.
    destruct (Failover.handle_transition _ _ _ _ _ _ _) as [h' st''].
    cbn [fst] in *.
    destruct (calculate_region_health_counts (HealthMonitor.region mon')
                (Failover.tick_now t) instance_healths Hsome)
      as [Htotal Hhealthy].
    apply Hstep; try assumption.
    + rewrite Htotal. destruct instance_healths; [congruence | cbn; lia].
    + unfold Failover.ratio_of. rewrite Htotal, Hhealthy. exact Hratio.
Qed.

(** With a recovery threshold below the degraded threshold the transition
    is not made: at a healthy ratio of 0.45 between them the reading
    recommends DEGRADED, for which a controller in FAILOVER_ACTIVE has no
    transition, although the ratio is above the recovery threshold. *)
Lemma failover_recovery_needs_ordered_thresholds :
  Failover.failover_state example_low_recovery = Failover.FAILOVER_ACTIVE
  /\ (Failover.recovery_threshold example_low_recovery
      <= observed_ratio example_partial_health)%Q
  /\ Failover.failover_state
       (fst (Failover.handle_transition (fun _ => false) (fun _ => false)
               false 160 example_partial_health example_low_recovery
               (StateManager.mkStore ∅ ∅ ∅ ∅)))
     = Failover.FAILOVER_ACTIVE
  /\ Failover.failover_state
       (fst (Failover.handle_transition (fun _ => false) (fun _ => false)
               false 160 example_partial_health example_low_recovery
               (StateManager.mkStore ∅ ∅ ∅ ∅)))
     ≠ Failover.RECOVERING.
Proof.
  split; [reflexivity |]. split; [vm_compute; discriminate |].
  split; [vm_compute; reflexivity | vm_compute; discriminate].
Qed.

Lemma failover_recovery_passes_through_recovering_witness :
  Failover.failover_state
    (fst (Failover.handle_transition (fun _ => false) (fun _ => false) false
            160 example_recovered_health example_failed_over
            (StateManager.mkStore ∅ ∅ ∅ ∅)))
  = Failover.RECOVERING.
Proof.
  apply (proj1 (proj2 failover_recovery_passes_through_recovering)).
  - reflexivity.
  - reflexivity.
  - vm_compute. discriminate.
  - vm_compute. discriminate.
  - vm_compute. discriminate.
Defined.

(** ** Router: selection *)

Lemma max_by_fold {A} (key : A -> Z) (rest pre post : list A) (best : A) :
  (forall c, c ∈ pre -> key c < key best) ->
  (forall c, c ∈ post -> key c <= key best) ->
  first_greatest key
    (foldl (fun best x => if bool_decide (key best < key x) then x else best)
       best rest)
    (pre ++ best :: post ++ rest)%list.
Proof.
  revert pre post best.
  induction rest as [| x rest IH]; intros pre post best Hpre Hpost.
  - exists pre, post. rewrite app_nil_r. auto.
  - cbn [foldl]. case_bool_decide as Hlt.
    + replace (pre ++ best :: post ++ x :: rest)%list
        with ((pre ++ best :: post) ++ x :: [] ++ rest)%list
        by (rewrite <- app_assoc; reflexivity).
      apply IH.
      * intros c Hc. apply elem_of_app in Hc as [Hc | Hc].
        -- specialize (Hpre c Hc). lia.
        -- apply elem_of_cons in Hc as [-> | Hc]; [exact Hlt |].
           specialize (Hpost c Hc). lia.
      * intros c Hc. inversion Hc.
    + replace (pre ++ best :: post ++ x :: rest)%list
        with (pre ++ best :: (post ++ [x]) ++ rest)%list
        by (rewrite <- (app_assoc post); reflexivity).
      apply IH; [exact Hpre |].
      intros c Hc. apply elem_of_app in Hc as [Hc | Hc].
      * now apply Hpost.
      * apply list_elem_of_singleton in Hc as ->. lia.
Qed.

Lemma max_by_first_greatest {A} (key : A -> Z) (first : A) (rest : list A) :
  first_greatest key (Router.max_by key first rest) (first :: rest).
Proof.
  apply (max_by_fold key rest [] [] first); intros c Hc; inversion Hc.
Qed.

Lemma first_greatest_elem {A} (key : A -> Z) (w : A) (l : list A) :
  first_greatest key w l -> w ∈ l /\ forall c, c ∈ l -> key c <= key w.
Proof.
  intros (before & after & -> & Hb & Ha). split.
  - apply elem_of_app. right. left.
  - intros c Hc. apply elem_of_app in Hc as [Hc | Hc].
    + specialize (Hb c Hc). lia.
    + apply elem_of_cons in Hc as [-> | Hc]; [lia | now apply Ha].
Qed.

Lemma select_instance_candidates (r : Router.RegionalRouter)
    (model_pool : string) :
  match Router.select_instance r model_pool with
  | None => candidates r model_pool = []
  | Some w => first_greatest Router.score_of w (candidates r model_pool)
  end.
Proof.
  unfold Router.select_instance, candidates, read_set.
  destruct (Router.get_instances_by_region_and_model _ _ _) as [| i l] eqn:E;
    [reflexivity |].
  destruct (filter _ (i :: l)) as [| first rest]; [reflexivity |].
  apply max_by_first_greatest.
Qed.

(** C2, as the code has it.  [select_instance] considers the instances the
    registry returns for the region and the requested model pool whose
    status is "ready" and whose health score is strictly greater than 50
    (the routing score is not filtered).  It returns the first of them, in
    the order read, whose routing score no other of them exceeds: ties are
    resolved by read order only.  When none passes the filter it returns
    nothing and [process_request] answers 503. *)
Theorem select_instance_first_best (r : Router.RegionalRouter)
    (model_pool : string) :
  match Router.select_instance r model_pool with
  | Some w =>
      first_greatest Router.score_of w (candidates r model_pool)
      /\ w ∈ read_set r model_pool
      /\ Router.model_pool w = model_pool
      /\ Router.status w = Some "ready"
      /\ 50 < default 0 (Router.health_score w)
      /\ forall c, c ∈ candidates r model_pool ->
           Router.score_of c <= Router.score_of w
  | None =>
      candidates r model_pool = []
      /\ forall upstream routing_time headers r0,
           Router.count_request r0 = r ->
           default "default" (Dynamo.assoc_get "X-Model-Pool" headers)
           = model_pool ->
           fst (Router.process_request upstream routing_time headers r0)
           = (None, 503)
  end.
Proof.
  pose proof (select_instance_candidates r model_pool) as H.
  destruct (Router.select_instance r model_pool) as [w |] eqn:E.
  - split; [exact H |].
    apply first_greatest_elem in H as [Hin Hmax].
    unfold candidates in Hin. apply list_elem_of_filter in Hin as [Hh Hin].
    split; [exact Hin |].
    unfold read_set, Router.get_instances_by_region_and_model in Hin.
    apply list_elem_of_filter in Hin as [Hpool _].
    split; [exact Hpool |].
    unfold Router.is_healthy in Hh. apply andb_true_iff in Hh as [Hs Hhs].
    apply bool_decide_eq_true in Hs. apply bool_decide_eq_true in Hhs.
    auto.
  - split; [exact H |].
    intros upstream routing_time headers r0 <- Hpool.
    unfold Router.process_request. rewrite Hpool, E. reflexivity.
Qed.

(** C2, counterexample to the claim as stated.  A worker with routing score
    40 (not above the floor of 50) is selected, because the filter reads the
    health score; and of two workers tied at routing score 90 the one with
    the deeper queue is selected, because it is read first. *)
Lemma select_instance_ignores_floor_and_queue :
  (exists w,
     Router.select_instance
       (Router.init "us-east-1" [ example_worker "i-a" 100 40 0 ]) "model-a"
     = Some w
     /\ Router.routing_score w = Some 40)
  /\ (exists w,
        Router.select_instance
          (Router.init "us-east-1"
             [ example_worker "i-b" 100 90 5; example_worker "i-c" 100 90 1 ])
          "model-a"
        = Some w
        /\ Router.instance_id w = "i-b"
        /\ Router.queue_depth w = 5).
Proof.
  split; eexists; (split; [vm_compute; reflexivity |]); repeat split.
Qed.

Lemma select_instance_first_best_witness :
  let r := Router.init "us-east-1"
             [ example_worker "i-d" 30 95 0; example_worker "i-e" 80 60 2 ] in
  exists w,
    Router.select_instance r "model-a" = Some w
    /\ Router.instance_id w = "i-e"
    /\ 50 < default 0 (Router.health_score w).
Proof.
  intros r.
  pose proof (select_instance_first_best r "model-a") as H.
  destruct (Router.select_instance r "model-a") as [w |] eqn:E;
    [| vm_compute in E; discriminate].
  exists w. split; [reflexivity |].
  split; [vm_compute in E; injection E as <-; reflexivity | tauto].
Defined.

(** ** Router: forwarding *)

(** C3, as the code has it.  The selected worker is sent one POST.  On a
    connection error the router demotes that worker through
    [registry.update_health(instance_id, health_score=0)] and answers 503;
    on a timeout it answers 504 and leaves the registry alone.  In neither
    case, nor in any other, is a second worker contacted: one call of
    [process_request] sends at most one POST. *)
Theorem process_request_forwards_once (upstream : string -> Router.reply)
    (routing_time : Q) (headers : list (string * string))
    (r : Router.RegionalRouter) :
  let result := Router.process_request upstream routing_time headers r in
  let model_pool :=
    default "default" (Dynamo.assoc_get "X-Model-Pool" headers) in
  (length (Router.sent (snd result)) <= length (Router.sent r) + 1)%nat
  /\ forall w ip,
       Router.select_instance (Router.count_request r) model_pool = Some w ->
       Router.private_ip w = Some ip ->
       Router.sent (snd result) = (Router.sent r ++ [Router.instance_id w])%list
       /\ (upstream (Router.instance_id w) = Router.ConnectionError ->
           fst result = (None, 503)
           /\ Router.registry (snd result)
              = Router.update_health (Router.instance_id w) 0
                  (Router.registry r))
       /\ (upstream (Router.instance_id w) = Router.Timeout ->
           fst result = (None, 504)
           /\ Router.registry (snd result) = Router.registry r).
Proof.
  intros result model_pool. subst result. unfold Router.process_request.
  fold model_pool.
  destruct (Router.select_instance (Router.count_request r) model_pool)
    as [w |] eqn:E.
  - unfold Router.forward_request.
    destruct (Router.private_ip w) as [ip |] eqn:Hip.
    + destruct (upstream (Router.instance_id w)) eqn:Hup; cbn;
        case_bool_decide as Hcode; try discriminate Hcode; cbn;
        (split; [rewrite length_app; cbn; lia |]);
        intros w' ip' [= <-] _; (split; [reflexivity |]);
        split; intros Hc; rewrite Hup in Hc; try discriminate Hc; auto.
    + cbn. split; [lia |]. intros w' ip' [= <-] Hip'. congruence.
  - cbn. split; [lia |]. intros w' ip' [=].
Qed.

(** C3, counterexample to the claim as stated.  The selected worker "i-a"
    refuses the connection and the next candidate "i-b" would answer 200;
    the request is answered 503 and "i-b" is never contacted: there is no
    retry. *)
Lemma process_request_does_not_retry :
  let result :=
    Router.process_request example_upstream 0 [ ("X-Model-Pool", "model-a") ]
      (Router.init "us-east-1" example_pair) in
  fst result = (None, 503)
  /\ Router.sent (snd result) = [ "i-a" ]
  /\ example_upstream "i-b" = Router.Response "ok" 200.
Proof. vm_compute. repeat split. Qed.

Lemma process_request_forwards_once_witness :
  let r := Router.init "us-east-1" example_pair in
  let result :=
    Router.process_request example_upstream 0 [ ("X-Model-Pool", "model-a") ]
      r in
  fst result = (None, 503)
  /\ Router.registry (snd result) = Router.update_health "i-a" 0 example_pair.
Proof.
  intros r result.
  destruct (process_request_forwards_once example_upstream 0
              [ ("X-Model-Pool", "model-a") ] r) as [_ H].
  destruct (H (example_worker "i-a" 100 90 0) "10.0.1.5")
    as (_ & Hconn & _); [vm_compute; reflexivity | reflexivity |].
  apply Hconn. reflexivity.
Defined.

(** ** Metrics readers on an empty window *)

(** C9, as the code has it.  When the queried window holds no sample, no
    reader raises, and: the model-load statistics are all 0 with count 0;
    the cleanup success rate is 100 (not 0) with total, passed and failed
    counts 0; the per-region RPS is 0 for each of the three regions and the
    average queue depth is 0 (these two answers carry no count). *)
Theorem readers_on_empty_window (fault : string -> bool) (now : Z)
    (st : StateManager.Store) :
  (forall model_pool minutes,
     no_samples fault now st "model_load_time" minutes ->
     Metrics.get_model_load_stats fault now st model_pool minutes
     = Ret (Metrics.mkLoadStats 0 0 0 0 0 0 0))
  /\ (forall hours,
        no_samples fault now st "cleanup_validation_duration" (hours * 60) ->
        Metrics.get_cleanup_success_rate fault now st hours
        = Ret (Metrics.mkCleanupStats 100 0 0 0))
  /\ (forall model_pool minutes,
        no_samples fault now st "rps" minutes ->
        Metrics.get_cluster_rps fault now st model_pool minutes
        = Ret [ ("us-east-1", 0%Q); ("us-east-2", 0%Q); ("us-west-2", 0%Q) ])
  /\ (forall region minutes,
        StateManager.get_metrics (fault region) now "queue_depth" region
          minutes st = [] ->
        Metrics.get_average_queue_depth fault now st region minutes = Ret 0%Q).
Proof.
  assert (Hregions : forall region,
             region = "us-east-1" \/ region = "us-east-2"
             \/ region = "us-west-2" -> region ∈ Metrics.regions).
  { intros region [-> | [-> | ->]]; unfold Metrics.regions;
      repeat (first [left | right]). }
  split; [| split; [| split]].
  - intros model_pool minutes Hno.
    unfold Metrics.get_model_load_stats, Metrics.region_model_load,
      Metrics.regions. cbn [Metrics.map_py].
    rewrite !Hno by (apply Hregions; auto). reflexivity.
  - intros hours Hno.
    unfold Metrics.get_cleanup_success_rate, Metrics.regions. cbn [fmap list_fmap].
    rewrite !Hno by (apply Hregions; auto). reflexivity.
  - intros model_pool minutes Hno.
    unfold Metrics.get_cluster_rps, Metrics.region_rps, Metrics.regions.
    cbn [Metrics.map_py].
    rewrite !Hno by (apply Hregions; auto).
    destruct model_pool as [[| c p] |]; reflexivity.
  - intros region minutes Hno.
    unfold Metrics.get_average_queue_depth. rewrite Hno. reflexivity.
Qed.

(** C9, counterexample to the claim as stated.  With no sample at all the
    cleanup success rate that is reported is 100, not 0. *)
Lemma cleanup_success_rate_empty_is_100 :
  exists stats,
    Metrics.get_cleanup_success_rate (fun _ => false) 1000
      (StateManager.mkStore ∅ ∅ ∅ ∅) 24 = Ret stats
    /\ Metrics.total_validations stats = 0
    /\ Metrics.success_rate stats = 100%Q
    /\ ~ (Metrics.success_rate stats == 0)%Q.
Proof.
  eexists. split; [vm_compute; reflexivity |]. cbn.
  repeat split. discriminate.
Qed.

Lemma readers_on_empty_window_witness :
  Metrics.get_model_load_stats (fun _ => false) 1000
    (StateManager.mkStore ∅ ∅ ∅ ∅) "model-a" 60
  = Ret (Metrics.mkLoadStats 0 0 0 0 0 0 0).
Proof.
  apply (proj1 (readers_on_empty_window (fun _ => false) 1000
                  (StateManager.mkStore ∅ ∅ ∅ ∅))).
  intros region _. reflexivity.
Defined.

(** ** Autoscaler: cooldown *)

Section Cooldown.

Variable time_at : nat -> Q.
Variable row_read_at : nat -> Autoscaler.row_read.
Variable store_fails_at : nat -> bool.
Variable self : Autoscaler.AutoScaler.

Lemma bind_unfold {A B} (m : Autoscaler.M A) (k : A -> Autoscaler.M B) w :
  Autoscaler.bind m k w
  = match m w with
    | (Ret a, w') => k a w'
    | (Raise e, w') => (Raise e, w')
    end.
Proof. reflexivity. Qed.

Lemma last_scale_time_insert (k : string) (v : Autoscaler.sval)
    (d : Autoscaler.dict) :
  k ≠ "last_scale_time" ->
  Autoscaler.last_scale_time (<[k := v]> d) = Autoscaler.last_scale_time d.
Proof.
  intros H. unfold Autoscaler.last_scale_time. now rewrite lookup_insert_ne.
Qed.

Lemma last_scale_time_record_action (desired : Z) (action : string) (now : Q)
    (d : Autoscaler.dict) :
  Autoscaler.last_scale_time (Autoscaler.record_action desired action now d)
  = Autoscaler.SNum now.
Proof.
  unfold Autoscaler.last_scale_time, Autoscaler.record_action.
  rewrite lookup_insert_ne by discriminate.
  rewrite lookup_insert_ne by discriminate.
  now rewrite lookup_insert_eq.
Qed.

(** A write either stores the row or raises and leaves it; neither reads
    the clock. *)
Lemma update_autoscaling_state_spec (region : string) (d : Autoscaler.dict)
    (w : Autoscaler.World) :
  exists r w',
    Autoscaler.update_autoscaling_state store_fails_at region d w = (r, w')
    /\ Autoscaler.reads w' = Autoscaler.reads w
    /\ ((r = Ret tt /\ Autoscaler.row w' = Some d)
        \/ ((exists e, r = Raise e)
            /\ Autoscaler.row w' = Autoscaler.row w)).
Proof.
  unfold Autoscaler.update_autoscaling_state.
  destruct (store_fails_at (Autoscaler.calls w)); eexists _, _;
    (split; [reflexivity |]); (split; [reflexivity |]);
    [right | left]; eauto.
Qed.

(** [get_scaling_state] always returns a dict, and does not read the
    clock. *)
Lemma get_scaling_state_returns (w : Autoscaler.World) :
  exists d w',
    Autoscaler.get_scaling_state row_read_at store_fails_at self w
    = (Ret d, w')
    /\ Autoscaler.reads w' = Autoscaler.reads w.
Proof.
  unfold Autoscaler.get_scaling_state, Autoscaler.try_except.
  rewrite bind_unfold. unfold Autoscaler.get_autoscaling_state.
  assert (Hstate :
            forall state : option Autoscaler.dict,
              exists d w',
                match
                  (if Autoscaler.no_state state
                   then
                     Autoscaler.bind
                       (Autoscaler.update_autoscaling_state store_fails_at
                          (Autoscaler.region self)
                          (Autoscaler.initial_state self))
                       (fun _ => Autoscaler.ret (Autoscaler.initial_state self))
                   else Autoscaler.ret (default ∅ state))
                    (Autoscaler.called w)
                with
                | (Raise _, w') => (Ret ∅, w')
                | r => r
                end = (Ret d, w')
                /\ Autoscaler.reads w' = Autoscaler.reads w).
  { intros state. destruct (Autoscaler.no_state state).
    - rewrite bind_unfold.
      destruct (update_autoscaling_state_spec (Autoscaler.region self)
                  (Autoscaler.initial_state self) (Autoscaler.called w))
        as (r & w' & -> & Hreads & [[-> _] | [[e ->] _]]);
        cbn; eauto.
    - cbn. eauto. }
  destruct (row_read_at (Autoscaler.calls w)) as [| r |]; cbv beta iota.
  - apply Hstate.
  - apply Hstate.
  - eexists _, _. split; reflexivity.
Qed.

(** (2) of the claim: an action that is carried out has stored the time it
    read, whatever the store did on the way. *)
Lemma scale_up_stamp (current_count : Z) (w : Autoscaler.World) :
  let up :=
    Autoscaler.scale_up time_at row_read_at store_fails_at self
      current_count w in
  fst up = Ret true ->
  Autoscaler.stored_last_scale_time (snd up)
  = Autoscaler.SNum (time_at (Autoscaler.reads w)).
Proof.
  cbn zeta. unfold Autoscaler.scale_up, Autoscaler.try_except.
  rewrite bind_unfold.
  destruct (get_scaling_state_returns w) as (d & w1 & -> & Hreads).
  cbv beta iota. rewrite bind_unfold. unfold Autoscaler.time_time.
  cbv beta iota. rewrite bind_unfold.
  match goal with
  | |- context [Autoscaler.update_autoscaling_state _ ?r ?d' ?w2] =>
      destruct (update_autoscaling_state_spec r d' w2)
        as (res & w3 & -> & _ & [[-> Hrow] | [[e ->] _]])
  end; cbv beta iota; unfold Autoscaler.ret; cbn [fst snd];
    [| discriminate].
  intros _. unfold Autoscaler.stored_last_scale_time. rewrite Hrow.
  cbn [default from_option id].
  rewrite last_scale_time_record_action, Hreads.
  reflexivity.
Qed.

Lemma scale_down_stamp (current_count : Z) (w : Autoscaler.World) :
  let down :=
    Autoscaler.scale_down time_at row_read_at store_fails_at self
      current_count w in
  fst down = Ret true ->
  Autoscaler.stored_last_scale_time (snd down)
  = Autoscaler.SNum (time_at (Autoscaler.reads w)).
Proof.
  cbn zeta. unfold Autoscaler.scale_down, Autoscaler.try_except.
  rewrite bind_unfold. unfold Autoscaler.list_gpu_instances.
  destruct (store_fails_at (Autoscaler.calls w)); [cbn; discriminate |].
  cbv beta iota.
  destruct (Autoscaler.fleet w) as [| first rest]; [cbn; discriminate |].
  rewrite bind_unfold. unfold Autoscaler.delete_gpu_instance.
  destruct (store_fails_at (Autoscaler.calls (Autoscaler.called w)));
    [cbn; discriminate |].
  cbv beta iota. rewrite bind_unfold.
  match goal with
  | |- context [Autoscaler.get_scaling_state _ _ _ ?w1] =>
      destruct (get_scaling_state_returns w1) as (d & w2 & -> & Hreads)
  end.
  cbv beta iota. rewrite bind_unfold. unfold Autoscaler.time_time.
  cbv beta iota. rewrite bind_unfold.
  match goal with
  | |- context [Autoscaler.update_autoscaling_state _ ?r ?d' ?w3] =>
      destruct (update_autoscaling_state_spec r d' w3)
        as (res & w4 & -> & _ & [[-> Hrow] | [[e ->] _]])
  end; cbv beta iota; unfold Autoscaler.ret; cbn [fst snd];
    [| discriminate].
  intros _. unfold Autoscaler.stored_last_scale_time. rewrite Hrow.
  cbn [default from_option id].
  rewrite last_scale_time_record_action, Hreads.
  reflexivity.
Qed.

Ltac gate_done Hpre :=
  cbn; unfold Autoscaler.stored_last_scale_time; cbn;
  rewrite ?last_scale_time_insert by discriminate;
  (split; [lia |]); (split; [first [reflexivity | exact Hpre] |]);
  split;
  [ let Heq := fresh "Heq" in
    intros ? ? Heq;
    first
      [ discriminate Heq
      | injection Heq as <- <-;
        rewrite ?last_scale_time_insert by discriminate; reflexivity ]
  | let Heq := fresh "Heq" in intros ? Heq; try discriminate Heq ].

Lemma should_scale_up_spec (current_rps : Q) (current_count : Z)
    (d : Autoscaler.dict) (w : Autoscaler.World) :
  Autoscaler.stored_last_scale_time w = Autoscaler.last_scale_time d ->
  gate_spec time_at self d w
    (Autoscaler.should_scale_up time_at store_fails_at self current_rps
       current_count d w).
Proof.
  destruct w as [n c row fl].
  unfold Autoscaler.stored_last_scale_time. cbn. intros Hpre.
  unfold Autoscaler.should_scale_up, gate_spec.
  case_bool_decide; [gate_done Hpre |].
  unfold Autoscaler.bind, Autoscaler.time_time, Autoscaler.lift,
    Autoscaler.ret, Autoscaler.update_autoscaling_state.
  cbn. fold (Autoscaler.last_scale_time d).
  destruct (Autoscaler.as_number (Autoscaler.last_scale_time d))
    as [last | e] eqn:El; [| gate_done Hpre].
  destruct (Qlt_le_dec (time_at n - last) _) as [Hcool | Hcool];
    [gate_done Hpre |].
  destruct (Qlt_le_dec _ _); cbn.
  - destruct (negb _); cbn;
      [destruct (store_fails_at _); gate_done Hpre |].
    destruct (Autoscaler.as_number
                (default Autoscaler.SNone (d !! "high_rps_since")));
      cbn; [| gate_done Hpre].
    destruct (Qle_bool _ _); cbn; [| gate_done Hpre].
    gate_done Hpre. exists last. split; [reflexivity |].
    unfold Autoscaler.cooldown_of. lra.
  - destruct (Autoscaler.truthy _);
      [destruct (store_fails_at _) |]; gate_done Hpre.
Qed.

Lemma should_scale_down_spec (current_rps : Q) (current_count : Z)
    (d : Autoscaler.dict) (w : Autoscaler.World) :
  Autoscaler.stored_last_scale_time w = Autoscaler.last_scale_time d ->
  gate_spec time_at self d w
    (Autoscaler.should_scale_down time_at store_fails_at self current_rps
       current_count d w).
Proof.
  destruct w as [n c row fl].
  unfold Autoscaler.stored_last_scale_time. cbn. intros Hpre.
  unfold Autoscaler.should_scale_down, gate_spec.
  case_bool_decide; [gate_done Hpre |].
  unfold Autoscaler.bind, Autoscaler.time_time, Autoscaler.lift,
    Autoscaler.ret, Autoscaler.update_autoscaling_state.
  cbn. fold (Autoscaler.last_scale_time d).
  destruct (Autoscaler.as_number (Autoscaler.last_scale_time d))
    as [last | e] eqn:El; [| gate_done Hpre].
  destruct (Qlt_le_dec (time_at n - last) _) as [Hcool | Hcool];
    [gate_done Hpre |].
  destruct (Qlt_le_dec _ _); cbn.
  - destruct (negb _); cbn;
      [destruct (store_fails_at _); gate_done Hpre |].
    destruct (Autoscaler.as_number
                (default Autoscaler.SNone (d !! "low_rps_since")));
      cbn; [| gate_done Hpre].
    destruct (Qle_bool _ _); cbn; [| gate_done Hpre].
    gate_done Hpre. exists last. split; [reflexivity |].
    unfold Autoscaler.cooldown_of. lra.
  - destruct (Autoscaler.truthy _);
      [destruct (store_fails_at _) |]; gate_done Hpre.
Qed.

(** The count of instances is always obtained (0 when the listing fails),
    without reading the clock or touching the row. *)
Lemma get_current_instance_count_spec (w : Autoscaler.World) :
  exists current_count w',
    Autoscaler.get_current_instance_count store_fails_at w
    = (Ret current_count, w')
    /\ Autoscaler.reads w' = Autoscaler.reads w
    /\ Autoscaler.row w' = Autoscaler.row w.
Proof.
  unfold Autoscaler.get_current_instance_count, Autoscaler.try_except,
    Autoscaler.bind, Autoscaler.list_gpu_instances, Autoscaler.ret.
  destruct (store_fails_at (Autoscaler.calls w)); eexists _, _;
    (split; [reflexivity |]); split; reflexivity.
Qed.

(** From here on every read of the scaling-state row is answered with the
    row as it was last written. *)
Hypothesis row_reads_fresh : forall n, row_read_at n = Autoscaler.Fresh.

Lemma get_scaling_state_spec (w : Autoscaler.World) :
  exists d w',
    Autoscaler.get_scaling_state row_read_at store_fails_at self w
    = (Ret d, w')
    /\ Autoscaler.reads w' = Autoscaler.reads w
    /\ Autoscaler.last_scale_time d = Autoscaler.stored_last_scale_time w
    /\ Autoscaler.stored_last_scale_time w'
       = Autoscaler.stored_last_scale_time w.
Proof.
  unfold Autoscaler.get_scaling_state, Autoscaler.try_except.
  rewrite bind_unfold. unfold Autoscaler.get_autoscaling_state.
  rewrite row_reads_fresh. cbv beta iota.
  destruct (Autoscaler.no_state (Autoscaler.row w)) eqn:Hno.
  - assert (Hstored : Autoscaler.stored_last_scale_time w
                      = Autoscaler.SInt 0).
    { unfold Autoscaler.stored_last_scale_time.
      destruct (Autoscaler.row w) as [d |]; cbn in Hno |- *;
        [| reflexivity].
      apply bool_decide_eq_true in Hno. subst d. reflexivity. }
    rewrite bind_unfold.
    destruct (update_autoscaling_state_spec (Autoscaler.region self)
                (Autoscaler.initial_state self) (Autoscaler.called w))
      as (r & w' & -> & Hreads & [[-> Hrow] | [[e ->] Hrow]]);
      cbv beta iota; unfold Autoscaler.ret;
      eexists _, _; (split; [reflexivity |]); (split; [exact Hreads |]);
      rewrite Hstored; unfold Autoscaler.stored_last_scale_time;
      rewrite Hrow; split; try reflexivity.
    cbn [Autoscaler.called Autoscaler.row].
    fold (Autoscaler.stored_last_scale_time w). exact Hstored.
  - cbn. eexists _, _. split; [reflexivity |]. split; [reflexivity |].
    split; reflexivity.
Qed.

Lemma scale_up_spec (current_count : Z) (w : Autoscaler.World) :
  action_spec time_at w
    (Autoscaler.scale_up time_at row_read_at store_fails_at self
       current_count w).
Proof.
  pose proof (scale_up_stamp current_count w) as Hstamp. cbn zeta in Hstamp.
  revert Hstamp.
  unfold Autoscaler.scale_up, Autoscaler.try_except, action_spec.
  rewrite bind_unfold.
  destruct (get_scaling_state_spec w) as (d & w1 & -> & Hreads & _ & Hst1).
  cbv beta iota. rewrite bind_unfold. unfold Autoscaler.time_time.
  cbv beta iota. rewrite bind_unfold.
  match goal with
  | |- context [Autoscaler.update_autoscaling_state _ ?r ?d' ?w2] =>
      destruct (update_autoscaling_state_spec r d' w2)
        as (res & w3 & -> & _ & [[-> Hrow] | [[e ->] Hrow]])
  end; cbv beta iota; unfold Autoscaler.ret; cbn [fst snd]; intros Hstamp.
  - left. split; [reflexivity | now apply Hstamp].
  - right. split; [reflexivity |].
    unfold Autoscaler.stored_last_scale_time in *. rewrite Hrow.
    exact Hst1.
Qed.

Lemma scale_down_spec (current_count : Z) (w : Autoscaler.World) :
  action_spec time_at w
    (Autoscaler.scale_down time_at row_read_at store_fails_at self
       current_count w).
Proof.
  pose proof (scale_down_stamp current_count w) as Hstamp.
  cbn zeta in Hstamp. revert Hstamp.
  unfold Autoscaler.scale_down, Autoscaler.try_except, action_spec.
  rewrite bind_unfold. unfold Autoscaler.list_gpu_instances.
  destruct (store_fails_at (Autoscaler.calls w));
    [intros _; right; split; reflexivity |].
  cbv beta iota.
  destruct (Autoscaler.fleet w) as [| first rest];
    [intros _; right; split; reflexivity |].
  rewrite bind_unfold. unfold Autoscaler.delete_gpu_instance.
  destruct (store_fails_at (Autoscaler.calls (Autoscaler.called w)));
    [intros _; right; split; reflexivity |].
  cbv beta iota. rewrite bind_unfold.
  match goal with
  | |- context [Autoscaler.get_scaling_state _ _ _ ?w1] =>
      destruct (get_scaling_state_spec w1)
        as (d & w2 & -> & Hreads & _ & Hst2)
  end.
  cbv beta iota. rewrite bind_unfold. unfold Autoscaler.time_time.
  cbv beta iota. rewrite bind_unfold.
  match goal with
  | |- context [Autoscaler.update_autoscaling_state _ ?r ?d' ?w3] =>
      destruct (update_autoscaling_state_spec r d' w3)
        as (res & w4 & -> & _ & [[-> Hrow] | [[e ->] Hrow]])
  end; cbv beta iota; unfold Autoscaler.ret; cbn [fst snd]; intros Hstamp.
  - left. split; [reflexivity | now apply Hstamp].
  - right. split; [reflexivity |].
    unfold Autoscaler.stored_last_scale_time in *. rewrite Hrow.
    exact Hst2.
Qed.

Lemma run_run_spec (current_rps : Q) (w : Autoscaler.World) :
  run_spec time_at self w
    (Autoscaler.run time_at row_read_at store_fails_at self current_rps w).
Proof.
  unfold Autoscaler.run, Autoscaler.try_except, run_spec.
  rewrite bind_unfold.
  destruct (get_current_instance_count_spec w)
    as (current_count & w0 & -> & Hreads0 & Hrow0).
  assert (Hst0 : Autoscaler.stored_last_scale_time w0
                 = Autoscaler.stored_last_scale_time w)
    by (unfold Autoscaler.stored_last_scale_time; now rewrite Hrow0).
  cbv beta iota. rewrite bind_unfold.
  destruct (get_scaling_state_spec w0) as (d & w1 & -> & Hreads1 & Hd & Hst1).
  cbv beta iota. rewrite bind_unfold.
  pose proof (should_scale_up_spec current_rps current_count d w1) as Hup.
  destruct (Autoscaler.should_scale_up _ _ _ _ _ _ _) as [r w2].
  destruct Hup as (Hreads2 & Hlst2 & Hd2' & Hgate2); [congruence |].
  destruct r as [[up d2] | e]; cbv beta iota.
  2: { exists None. split; [reflexivity |]. congruence. }
  pose proof (Hd2' up d2 eq_refl) as Hd2.
  destruct up.
  - destruct (Hgate2 d2 eq_refl) as (last & Hlast & Hcool).
    rewrite bind_unfold.
    pose proof (scale_up_spec current_count w2) as Hact.
    destruct (Autoscaler.scale_up _ _ _ _ _ _) as [r3 w3].
    destruct Hact as [[-> Hlst3] | [-> Hlst3]]; cbv beta iota.
    + exists (Some Autoscaler.ScaleUp). split; [reflexivity |].
      exists last, (Autoscaler.reads w1), (Autoscaler.reads w2).
      rewrite <- Hst0, <- Hd. auto.
    + exists None. split; [reflexivity |]. congruence.
  - rewrite bind_unfold.
    pose proof (should_scale_down_spec current_rps current_count d2 w2)
      as Hdown.
    destruct (Autoscaler.should_scale_down _ _ _ _ _ _ _) as [r w3].
    destruct Hdown as (Hreads3 & Hlst3 & Hd3' & Hgate3); [congruence |].
    destruct r as [[down d3] | e]; cbv beta iota.
    2: { exists None. split; [reflexivity |]. congruence. }
    destruct down.
    + destruct (Hgate3 d3 eq_refl) as (last & Hlast & Hcool).
      rewrite bind_unfold.
      pose proof (scale_down_spec current_count w3) as Hact.
      destruct (Autoscaler.scale_down _ _ _ _ _ _) as [r4 w4].
      destruct Hact as [[-> Hlst4] | [-> Hlst4]]; cbv beta iota.
      * exists (Some Autoscaler.ScaleDown). split; [reflexivity |].
        exists last, (Autoscaler.reads w2), (Autoscaler.reads w3).
        rewrite <- Hst0, <- Hd, <- Hd2. auto.
      * exists None. split; [reflexivity |]. congruence.
    + exists None. split; [reflexivity |]. congruence.
Qed.

Hypothesis time_at_mono :
  forall m n : nat, (m <= n)%nat -> (time_at m <= time_at n)%Q.

Lemma runs_gapped (inputs : list (Q * list Autoscaler.GpuInstance))
    (w : Autoscaler.World) :
  match Autoscaler.as_number (Autoscaler.stored_last_scale_time w) with
  | Ret last =>
      gapped (Autoscaler.cooldown_of self) last
        (fst (Autoscaler.runs time_at row_read_at store_fails_at self inputs
                w))
  | Raise _ =>
      fst (Autoscaler.runs time_at row_read_at store_fails_at self inputs w)
      = []
  end.
Proof.
  revert w. induction inputs as [| [current_rps fl] inputs IH]; intros w.
  - cbn. destruct (Autoscaler.as_number _); [exact I | reflexivity].
  - cbn [Autoscaler.runs].
    set (w0 := Autoscaler.mkWorld _ _ _ fl).
    assert (Hw0 : Autoscaler.stored_last_scale_time w0
                  = Autoscaler.stored_last_scale_time w) by reflexivity.
    pose proof (run_run_spec current_rps w0) as Hrun.
    destruct (Autoscaler.run time_at row_read_at store_fails_at self
                current_rps w0) as [r w1].
    destruct Hrun as (act & -> & Hact).
    specialize (IH w1).
    destruct (Autoscaler.runs time_at row_read_at store_fails_at self inputs
                w1) as [actions w2].
    cbn [fst] in *.
    destruct act as [action |].
    + destruct Hact as (last & k0 & k & Hlast & Hcool & Hk & Hlst).
      rewrite <- Hw0, Hlast. cbn [gapped].
      unfold Autoscaler.stamp. rewrite Hlst in *. cbn in *.
      split; [| exact IH].
      pose proof (time_at_mono k0 k Hk). lra.
    + rewrite Hact, Hw0 in IH. exact IH.
Qed.

Lemma gapped_lookup (c prev : Q) (l : list (Autoscaler.Action * Q))
    (i : nat) (a1 a2 : Autoscaler.Action) (t1 t2 : Q) :
  gapped c prev l ->
  l !! i = Some (a1, t1) -> l !! S i = Some (a2, t2) -> (t1 + c <= t2)%Q.
Proof.
  revert prev i. induction l as [| [a t] l IH]; intros prev i Hg H1 H2.
  - discriminate.
  - destruct Hg as [_ Hg]. destruct i as [| i].
    + cbn in H1. injection H1 as -> ->.
      destruct l as [| [a' t'] l]; [discriminate |].
      cbn in H2. injection H2 as -> ->. exact (proj1 Hg).
    + exact (IH t i Hg H1 H2).
Qed.

End Cooldown.



